(** * Reading-diary manager: models.py and book_manager.py

    A shallow embedding of the entity model ([Book], [Diary]) and of the
    repository class [BookManager] with its JSON persistence, followed by
    the properties of the specification stated over that embedding.

    Conventions of the embedding.
    - Python [int] is [Z].  A Python [str] is the [string] of its bytes:
      the embedding represents ASCII text exactly; [lower], slicing and
      the digits [strptime] accepts are modelled on ASCII text, and the
      properties that depend on them are stated for ASCII text.
    - A Python [dict] keeps insertion order and has unique keys: it is an
      association list, [d[k] = v] overwrites in place or appends.
    - A raised exception is the [Raise] branch of [result].
    - [uuid.uuid4()] and [datetime.now()] are inputs of the constructors.
    - The file system is a map from paths to files; the text codec of
      the [json] module is not part of the repository, so a file is
      represented by the value [json.load] yields on it. *)

From Stdlib Require Import ZArith List String Ascii Bool Lia.
From Stdlib Require Import Permutation Sorted.
Import ListNotations.

Local Open Scope string_scope.
Local Open Scope list_scope.
Local Open Scope Z_scope.

(* ===================================================================== *)
(** ** Exceptions *)
(* ===================================================================== *)

Inductive exn : Type :=
| KeyError
| TypeError
| ValueError
| AttributeError.

Inductive result (A : Type) : Type :=
| Ok (a : A)
| Raise (e : exn).

Arguments Ok {A} a.
Arguments Raise {A} e.

Definition bind {A B : Type} (r : result A) (k : A -> result B) : result B :=
  match r with
  | Ok a => k a
  | Raise e => Raise e
  end.

Notation "x <- c ;; k" := (bind c (fun x => k))
  (at level 61, c at next level, right associativity).

(* ===================================================================== *)
(** ** Python dictionaries with string keys *)
(* ===================================================================== *)

Module PyDict.

Definition dict (V : Type) : Type := list (string * V).

Section Ops.
Context {V : Type}.

(** [d.get(k)] *)
Fixpoint get (k : string) (d : dict V) : option V :=
  match d with
  | [] => None
  | (k', v) :: r => if String.eqb k k' then Some v else get k r
  end.

(** [k in d] *)
Definition mem (k : string) (d : dict V) : bool :=
  match get k d with
  | Some _ => true
  | None => false
  end.

(** [d[k] = v]: an existing key keeps its position, a new key goes
    to the end. *)
Fixpoint set (k : string) (v : V) (d : dict V) : dict V :=
  match d with
  | [] => [(k, v)]
  | (k', v') :: r =>
      if String.eqb k k' then (k', v) :: r else (k', v') :: set k v r
  end.

(** [del d[k]] (the caller has checked [k in d]) *)
Fixpoint del (k : string) (d : dict V) : dict V :=
  match d with
  | [] => []
  | (k', v') :: r => if String.eqb k k' then r else (k', v') :: del k r
  end.

Definition keys (d : dict V) : list string := map fst d.
Definition values (d : dict V) : list V := map snd d.

(** [dict(items)]: later pairs overwrite earlier ones. *)
Definition of_items (items : list (string * V)) : dict V :=
  fold_left (fun acc kv => set (fst kv) (snd kv) acc) items [].

(** The representation invariant of a Python dict. *)
Definition wf (d : dict V) : Prop := NoDup (keys d).

End Ops.

End PyDict.

Import PyDict.

(* ===================================================================== *)
(** ** Python strings: [lower] and [in] *)
(* ===================================================================== *)

Module PyStr.

(** [str.lower] on the ASCII range; other bytes are left alone. *)
Definition lower_ascii (c : ascii) : ascii :=
  let n := nat_of_ascii c in
  if ((65 <=? n)%nat && (n <=? 90)%nat)%bool
  then ascii_of_nat (n + 32)
  else c.

Fixpoint lower (s : string) : string :=
  match s with
  | EmptyString => EmptyString
  | String c r => String (lower_ascii c) (lower r)
  end.

(** [q in s]: [q] occurs in [s] as a contiguous substring. *)
Fixpoint contains (q s : string) : bool :=
  if String.prefix q s then true
  else match s with
       | EmptyString => false
       | String _ r => contains q r
       end.

(** The text consists of ASCII characters only. *)
Fixpoint is_ascii (s : string) : bool :=
  match s with
  | EmptyString => true
  | String c r => (nat_of_ascii c <? 128)%nat && is_ascii r
  end.

End PyStr.

(* ===================================================================== *)
(** ** [datetime]: the part of the library the models use *)
(* ===================================================================== *)

Module Datetime.

Record datetime : Type := mk_datetime {
  year : Z;
  month : Z;
  day : Z;
  hour : Z;
  minute : Z;
  second : Z;
  microsecond : Z
}.

Definition is_leap (y : Z) : bool :=
  (y mod 4 =? 0) && (negb (y mod 100 =? 0) || (y mod 400 =? 0)).

Definition days_in_month (y m : Z) : Z :=
  if m =? 2 then (if is_leap y then 29 else 28)
  else if (m =? 4) || (m =? 6) || (m =? 9) || (m =? 11) then 30
  else 31.

(** The range check of the [datetime] constructor. *)
Definition valid_date (y m d : Z) : bool :=
  (1 <=? y) && (y <=? 9999) && (1 <=? m) && (m <=? 12)
  && (1 <=? d) && (d <=? days_in_month y m).

Definition valid_time (h mi s us : Z) : bool :=
  (0 <=? h) && (h <? 24) && (0 <=? mi) && (mi <? 60)
  && (0 <=? s) && (s <? 60) && (0 <=? us) && (us <? 1000000).

Definition valid (dt : datetime) : bool :=
  valid_date (year dt) (month dt) (day dt)
  && valid_time (hour dt) (minute dt) (second dt) (microsecond dt).

(** The calendar day of [dt] at 00:00:00. *)
Definition midnight (dt : datetime) : datetime :=
  mk_datetime (year dt) (month dt) (day dt) 0 0 0 0.

(** No time-of-day component. *)
Definition is_midnight (dt : datetime) : bool :=
  (hour dt =? 0) && (minute dt =? 0) && (second dt =? 0)
  && (microsecond dt =? 0).

(** *** Ordering: datetimes compare field by field *)

Definition key (dt : datetime) : list Z :=
  [year dt; month dt; day dt; hour dt; minute dt; second dt;
   microsecond dt].

Fixpoint lex_compare (a b : list Z) : comparison :=
  match a, b with
  | [], [] => Eq
  | [], _ :: _ => Lt
  | _ :: _, [] => Gt
  | x :: a', y :: b' =>
      match x ?= y with
      | Eq => lex_compare a' b'
      | c => c
      end
  end.

Definition compare (a b : datetime) : comparison :=
  lex_compare (key a) (key b).

Definition ltb (a b : datetime) : bool :=
  match compare a b with Lt => true | _ => false end.

Definition eqb (a b : datetime) : bool :=
  match compare a b with Eq => true | _ => false end.

(** *** [strftime("%Y-%m-%d")]

    [%m] and [%d] are two digits.  [%Y] is printed by the C library,
    which writes the digits of the year without zero fill: a year from
    1000 on has its four digits, the year 999 is written "999". *)

Definition digit_char (d : Z) : ascii := ascii_of_nat (Z.to_nat (48 + d)).

Definition pad2 (n : Z) : list ascii :=
  [digit_char (n / 10); digit_char (n mod 10)].

Definition pad4 (n : Z) : list ascii :=
  [digit_char (n / 1000); digit_char (n / 100 mod 10);
   digit_char (n / 10 mod 10); digit_char (n mod 10)].

Definition dash : ascii := "-"%char.

Definition year_chars (y : Z) : list ascii :=
  if y <? 10 then [digit_char y]
  else if y <? 100 then pad2 y
  else if y <? 1000
       then [digit_char (y / 100); digit_char (y / 10 mod 10);
             digit_char (y mod 10)]
       else pad4 y.

Definition strftime_chars (dt : datetime) : list ascii :=
  year_chars (year dt) ++ dash :: pad2 (month dt) ++ dash :: pad2 (day dt).

Definition strftime (dt : datetime) : string :=
  string_of_list_ascii (strftime_chars dt).

(** *** [strptime(s, "%Y-%m-%d")]

    The format compiles to the regular expression
    [(\d\d\d\d)-(1[0-2]|0[1-9]|[1-9])-(3[01]|[12]\d|0[1-9]|[1-9]| [1-9])],
    matched at the start of the input with the alternatives tried in
    order; input left over after the match and a day outside the month
    raise [ValueError].  [\d] is a digit from 0 to 9: on ASCII text this
    is the library's parser; the digits of other scripts, which the
    library takes as well, are not represented. *)

Definition rx : Type := list ascii -> option (Z * list ascii).

Definition digit_val (c : ascii) : option Z :=
  let n := Z.of_nat (nat_of_ascii c) in
  if (48 <=? n) && (n <=? 57) then Some (n - 48) else None.

(** One digit in the class [[lo-hi]]. *)
Definition rx_digit (lo hi : Z) : rx := fun l =>
  match l with
  | c :: r =>
      match digit_val c with
      | Some v => if (lo <=? v) && (v <=? hi) then Some (v, r) else None
      | None => None
      end
  | [] => None
  end.

(** Two digits, each in its own class. *)
Definition rx_two (lo1 hi1 lo2 hi2 : Z) : rx := fun l =>
  match rx_digit lo1 hi1 l with
  | Some (a, r) =>
      match rx_digit lo2 hi2 r with
      | Some (b, r') => Some (10 * a + b, r')
      | None => None
      end
  | None => None
  end.

(** A space, then one digit. *)
Definition rx_space_digit (lo hi : Z) : rx := fun l =>
  match l with
  | c :: r => if Ascii.eqb c " "%char then rx_digit lo hi r else None
  | [] => None
  end.

Definition rx_year : rx := fun l =>
  match rx_two 0 9 0 9 l with
  | Some (hi, r) =>
      match rx_two 0 9 0 9 r with
      | Some (lo, r') => Some (100 * hi + lo, r')
      | None => None
      end
  | None => None
  end.

Definition month_alts : list rx :=
  [rx_two 1 1 0 2; rx_two 0 0 1 9; rx_digit 1 9].

Definition day_alts : list rx :=
  [rx_two 3 3 0 1; rx_two 1 2 0 9; rx_two 0 0 1 9; rx_digit 1 9;
   rx_space_digit 1 9].

Definition expect (a : ascii) (l : list ascii) : option (list ascii) :=
  match l with
  | c :: r => if Ascii.eqb c a then Some r else None
  | [] => None
  end.

(** Ordered alternation with backtracking into the continuation [k]. *)
Fixpoint first_match {A : Type} (alts : list rx)
    (k : Z -> list ascii -> option A) (l : list ascii) : option A :=
  match alts with
  | [] => None
  | p :: ps =>
      let here := match p l with
                  | Some (v, r) => k v r
                  | None => None
                  end in
      match here with
      | Some a => Some a
      | None => first_match ps k l
      end
  end.

Definition rx_ymd (l : list ascii) : option (Z * Z * Z * list ascii) :=
  match rx_year l with
  | Some (y, r0) =>
      match expect dash r0 with
      | Some r1 =>
          first_match month_alts
            (fun m r2 =>
               match expect dash r2 with
               | Some r3 =>
                   first_match day_alts
                     (fun d r4 => Some (y, m, d, r4)) r3
               | None => None
               end) r1
      | None => None
      end
  | None => None
  end.

Definition strptime (s : string) : result datetime :=
  match rx_ymd (list_ascii_of_string s) with
  | Some (y, m, d, []) =>
      if valid_date y m d then Ok (mk_datetime y m d 0 0 0 0)
      else Raise ValueError
  | Some (_, _, _, _ :: _) => Raise ValueError
  | None => Raise ValueError
  end.

End Datetime.

Import Datetime.

(* ===================================================================== *)
(** ** Values read from and written to JSON *)
(* ===================================================================== *)

Module Json.

(** The values [json.load] builds, with integer numbers; a number with
    a fraction or an exponent (a Python [float]) is not represented. *)
#[warnings="-register-all"]
Inductive json : Type :=
| JNull
| JBool (b : bool)
| JInt (z : Z)
| JStr (s : string)
| JList (l : list json)
| JDict (d : list (string * json)).

(** Python truthiness, as used by [x if x else y]. *)
Definition truthy (j : json) : bool :=
  match j with
  | JNull => false
  | JBool b => b
  | JInt z => negb (z =? 0)
  | JStr s => negb (String.eqb s "")
  | JList l => match l with [] => false | _ :: _ => true end
  | JDict d => match d with [] => false | _ :: _ => true end
  end.

(** [data[k]] with a string key. *)
Definition subscript (data : json) (k : string) : result json :=
  match data with
  | JDict d =>
      match get k d with
      | Some v => Ok v
      | None => Raise KeyError
      end
  | _ => Raise TypeError
  end.

(** [data.get(k, dflt)] *)
Definition get_default (data : json) (k : string) (dflt : json)
  : result json :=
  match data with
  | JDict d =>
      match get k d with
      | Some v => Ok v
      | None => Ok dflt
      end
  | _ => Raise AttributeError
  end.

(** [data.items()] *)
Definition items (data : json) : result (list (string * json)) :=
  match data with
  | JDict d => Ok d
  | _ => Raise AttributeError
  end.

(** [for x in data]: a list yields its elements, a dict its keys, a
    string its characters; anything else is not iterable. *)
Definition iter (data : json) : result (list json) :=
  match data with
  | JList l => Ok l
  | JDict d => Ok (map JStr (keys d))
  | JStr s =>
      Ok (map (fun c => JStr (String c EmptyString))
            (list_ascii_of_string s))
  | _ => Raise TypeError
  end.

Definition as_str (j : json) : option string :=
  match j with JStr s => Some s | _ => None end.

Definition as_int (j : json) : option Z :=
  match j with JInt z => Some z | _ => None end.

(** An [Optional[str]] argument tested with [x if x else ...]: a falsy
    value behaves as [None]; a truthy value that is not a string lies
    outside the annotated type. *)
Definition as_opt_str (j : json) : option (option string) :=
  if truthy j then option_map Some (as_str j) else Some None.

End Json.

Import Json.

(** What a constructor call reads from its surroundings. *)
Record Env : Type := mk_Env {
  uuid4 : string;        (* str(uuid.uuid4()) *)
  now : datetime         (* datetime.now() *)
}.

(** [from_dict] does not check the types of the values it is given.  The
    entities below are typed as annotated in the source; a decoded object
    that violates the annotations is [None] inside [Ok]: no exception is
    raised for it. *)
Definition decoded (A : Type) : Type := result (option A).

(* ===================================================================== *)
(** ** models.py *)
(* ===================================================================== *)

Module Book.

Record t : Type := mk {
  id : string;
  title : string;
  author : string;
  published_year : Z;
  genre : string;
  memo : string
}.

(** [Book.__init__] *)
Definition init (env : Env) (title author : string) (published_year : Z)
    (genre memo : string) (book_id : option string) : t :=
  mk (match book_id with
      | Some s => if String.eqb s "" then uuid4 env else s
      | None => uuid4 env
      end)
     title author published_year genre memo.

Definition to_dict (self : t) : json :=
  JDict [("id", JStr (id self));
         ("title", JStr (title self));
         ("author", JStr (author self));
         ("published_year", JInt (published_year self));
         ("genre", JStr (genre self));
         ("memo", JStr (memo self))].

Definition from_dict (env : Env) (data : json) : decoded t :=
  title <- subscript data "title" ;;
  author <- subscript data "author" ;;
  published_year <- subscript data "published_year" ;;
  genre <- get_default data "genre" (JStr "") ;;
  memo <- get_default data "memo" (JStr "") ;;
  book_id <- subscript data "id" ;;
  Ok (match as_str title, as_str author, as_int published_year,
            as_str genre, as_str memo, as_opt_str book_id with
      | Some t', Some a, Some y, Some g, Some m, Some i =>
          Some (init env t' a y g m i)
      | _, _, _, _, _, _ => None
      end).

(** Every object built by the constructor has a non-empty id. *)
Definition valid (b : t) : Prop := id b <> "".

End Book.

Module Diary.

Record t : Type := mk {
  id : string;
  book_id : string;
  date : datetime;
  content : string
}.

(** [Diary.__init__]; a [datetime] object is always truthy. *)
Definition init (env : Env) (book_id content : string)
    (date : option datetime) (diary_id : option string) : t :=
  mk (match diary_id with
      | Some s => if String.eqb s "" then uuid4 env else s
      | None => uuid4 env
      end)
     book_id
     (match date with
      | Some d => d
      | None => now env
      end)
     content.

Definition to_dict (self : t) : json :=
  JDict [("id", JStr (id self));
         ("book_id", JStr (book_id self));
         ("date", JStr (strftime (date self)));
         ("content", JStr (content self))].

Definition from_dict (env : Env) (data : json) : decoded t :=
  date_str <- subscript data "date" ;;
  date <- match date_str with
          | JStr s => strptime s
          | _ => Raise TypeError
          end ;;
  book_id <- subscript data "book_id" ;;
  content <- subscript data "content" ;;
  diary_id <- subscript data "id" ;;
  Ok (match as_str book_id, as_str content, as_opt_str diary_id with
      | Some b, Some c, Some i => Some (init env b c (Some date) i)
      | _, _, _ => None
      end).

(** Every object built by the constructor has a non-empty id, and its
    date is a [datetime] object. *)
Definition valid (d : t) : Prop :=
  id d <> "" /\ Datetime.valid (date d) = true.

(** [Diary.__str__]: the date, then the first 30 characters of the
    content ([content[:30]]), then three dots.  A character is a byte
    here, which is exact for an ASCII content. *)
Definition __str__ (self : t) : string :=
  String.append (strftime (date self))
    (String.append ": "
       (String.append (String.substring 0 30 (content self)) "...")).

End Diary.

(* ===================================================================== *)
(** ** The file system *)
(* ===================================================================== *)

(** A file that exists either cannot be opened or parsed ([Garbled]:
    [open] or [json.load] raises), or holds a JSON document. *)
Inductive File : Type :=
| Garbled
| Document (data : json).

(** [writable p] tells whether [open(p, "w")] succeeds; a failing save
    leaves the file as it was. *)
Record World : Type := mk_World {
  files : string -> option File;
  writable : string -> bool
}.

Definition write_file (p : string) (f : File) (w : World) : World :=
  mk_World (fun q => if String.eqb q p then Some f else files w q)
           (writable w).

(* ===================================================================== *)
(** ** List helpers for the loops of book_manager.py *)
(* ===================================================================== *)

Section ListOps.
Context {A : Type}.

(** Index of the first element satisfying [f]. *)
Fixpoint find_index (f : A -> bool) (l : list A) : option nat :=
  match l with
  | [] => None
  | x :: r => if f x then Some O else option_map S (find_index f r)
  end.

(** [l[i] = x] *)
Fixpoint replace_nth (i : nat) (x : A) (l : list A) : list A :=
  match l, i with
  | [], _ => []
  | _ :: r, O => x :: r
  | y :: r, S i' => y :: replace_nth i' x r
  end.

(** [del l[i]] *)
Fixpoint remove_nth (i : nat) (l : list A) : list A :=
  match l, i with
  | [], _ => []
  | _ :: r, O => r
  | y :: r, S i' => y :: remove_nth i' r
  end.

(** [sorted(l, key=key, reverse=True)] with [datetime] keys: descending,
    and stable (elements with equal keys keep their order in [l]). *)
Fixpoint insert_desc (key : A -> datetime) (x : A) (l : list A) : list A :=
  match l with
  | [] => [x]
  | y :: r =>
      if Datetime.ltb (key x) (key y) then y :: insert_desc key x r
      else x :: y :: r
  end.

Definition sorted_desc (key : A -> datetime) (l : list A) : list A :=
  fold_right (insert_desc key) [] l.

(** [a] may stand before [b] in a list sorted by key, latest first. *)
Definition not_before (key : A -> datetime) (a b : A) : Prop :=
  Datetime.ltb (key a) (key b) = false.

(** Evaluate [f] on the elements in order; the first exception stops
    the loop. *)
Fixpoint traverse {B : Type} (f : nat -> A -> result B) (i : nat)
    (l : list A) : result (list B) :=
  match l with
  | [] => Ok []
  | x :: r =>
      y <- f i x ;;
      ys <- traverse f (S i) r ;;
      Ok (y :: ys)
  end.

(** All the decoded objects respect their annotations. *)
Fixpoint all_typed (l : list (option A)) : option (list A) :=
  match l with
  | [] => Some []
  | Some x :: r => option_map (cons x) (all_typed r)
  | None :: _ => None
  end.

End ListOps.

Definition all_typed_items {A : Type} (l : list (string * option A))
  : option (list (string * A)) :=
  all_typed (map (fun kv => option_map (pair (fst kv)) (snd kv)) l).

(* ===================================================================== *)
(** ** book_manager.py *)
(* ===================================================================== *)

Module BookManager.

Record t : Type := mk {
  books : dict Book.t;
  diaries : dict (list Diary.t);
  data_file : string
}.

Definition set_books (bs : dict Book.t) (self : t) : t :=
  mk bs (diaries self) (data_file self).

Definition set_diaries (ds : dict (list Diary.t)) (self : t) : t :=
  mk (books self) ds (data_file self).

(** *** Persistence *)

(** The document [save_data] builds. *)
Definition document (self : t) : json :=
  JDict
    [("books",
      JDict (of_items
               (map (fun kv => (fst kv, Book.to_dict (snd kv)))
                    (books self))));
     ("diaries",
      JDict (of_items
               (map (fun kv => (fst kv, JList (map Diary.to_dict (snd kv))))
                    (diaries self))))].

(** [save_data]: every exception is caught and reported as [False]. *)
Definition save_data (self : t) (w : World) : World * bool :=
  if writable w (data_file self)
  then (write_file (data_file self) (Document (document self)) w, true)
  else (w, false).

(** [{book_id: Book.from_dict(book_data) for book_id, book_data in
     data.get("books", {}).items()}]; [env i] is what the [i]-th
    constructor call reads. *)
Definition decode_books (env : nat -> Env) (data : json)
  : decoded (dict Book.t) :=
  section <- get_default data "books" (JDict []) ;;
  entries <- items section ;;
  objs <- traverse
            (fun i kv =>
               b <- Book.from_dict (env i) (snd kv) ;; Ok (fst kv, b))
            O entries ;;
  Ok (option_map of_items (all_typed_items objs)).

(** [[Diary.from_dict(diary_data) for diary_data in diaries_data]] *)
Definition decode_diary_list (env : nat -> Env) (diaries_data : json)
  : decoded (list Diary.t) :=
  elems <- iter diaries_data ;;
  objs <- traverse (fun i x => Diary.from_dict (env i) x) O elems ;;
  Ok (all_typed objs).

Definition decode_diaries (env : nat -> nat -> Env) (data : json)
  : decoded (dict (list Diary.t)) :=
  section <- get_default data "diaries" (JDict []) ;;
  entries <- items section ;;
  objs <- traverse
            (fun i kv =>
               l <- decode_diary_list (env i) (snd kv) ;; Ok (fst kv, l))
            O entries ;;
  Ok (option_map of_items (all_typed_items objs)).

(** [load_data].  [env 0 i] serves the [i]-th book record, [env (S j) i]
    the [i]-th diary record of the [j]-th book.  [self.books] is
    assigned before the diaries are decoded.  The result is [None] when
    an object that violates the annotations has been stored. *)
Definition load_data (env : nat -> nat -> Env) (self : t) (w : World)
  : option (t * bool) :=
  match files w (data_file self) with
  | None => Some (self, false)
  | Some Garbled => Some (self, false)
  | Some (Document data) =>
      match decode_books (env O) data with
      | Raise _ => Some (self, false)
      | Ok None => None
      | Ok (Some bs) =>
          let self1 := set_books bs self in
          match decode_diaries (fun j => env (S j)) data with
          | Raise _ => Some (self1, false)
          | Ok None => None
          | Ok (Some ds) => Some (set_diaries ds self1, true)
          end
      end
  end.

(** [BookManager.__init__] *)
Definition init (env : nat -> nat -> Env) (data_file : string) (w : World)
  : option t :=
  option_map fst (load_data env (mk [] [] data_file) w).

(** The repository before anything was stored or loaded. *)
Definition empty (data_file : string) : t := mk [] [] data_file.

(** *** Books *)

Definition add_book (book : Book.t) (self : t) (w : World)
  : t * World * string :=
  let self1 := set_books (set (Book.id book) book (books self)) self in
  let self2 :=
    if mem (Book.id book) (diaries self1) then self1
    else set_diaries (set (Book.id book) [] (diaries self1)) self1 in
  (self2, fst (save_data self2 w), Book.id book).

Definition update_book (book : Book.t) (self : t) (w : World)
  : t * World * bool :=
  if mem (Book.id book) (books self) then
    let self1 := set_books (set (Book.id book) book (books self)) self in
    (self1, fst (save_data self1 w), true)
  else (self, w, false).

Definition delete_book (book_id : string) (self : t) (w : World)
  : t * World * bool :=
  if mem book_id (books self) then
    let self1 := set_books (del book_id (books self)) self in
    let self2 :=
      if mem book_id (diaries self1)
      then set_diaries (del book_id (diaries self1)) self1
      else self1 in
    (self2, fst (save_data self2 w), true)
  else (self, w, false).

Definition get_book (book_id : string) (self : t) : option Book.t :=
  get book_id (books self).

Definition get_all_books (self : t) : list Book.t :=
  values (books self).

Definition search_books (query : string) (self : t) : list Book.t :=
  let query := PyStr.lower query in
  filter
    (fun book =>
       PyStr.contains query (PyStr.lower (Book.title book))
       || PyStr.contains query (PyStr.lower (Book.author book))
       || PyStr.contains query (PyStr.lower (Book.genre book))
       || PyStr.contains query (PyStr.lower (Book.memo book)))
    (values (books self)).

(** *** Diaries *)

Definition add_diary (diary : Diary.t) (self : t) (w : World)
  : t * World * result string :=
  if mem (Diary.book_id diary) (books self) then
    let self1 :=
      if mem (Diary.book_id diary) (diaries self) then self
      else set_diaries (set (Diary.book_id diary) [] (diaries self)) self in
    let stored :=
      match get (Diary.book_id diary) (diaries self1) with
      | Some l => l
      | None => []
      end in
    let self2 :=
      set_diaries
        (set (Diary.book_id diary) (stored ++ [diary]) (diaries self1))
        self1 in
    (self2, fst (save_data self2 w), Ok (Diary.id diary))
  else (self, w, Raise ValueError).

Definition update_diary (diary : Diary.t) (self : t) (w : World)
  : t * World * bool :=
  match get (Diary.book_id diary) (diaries self) with
  | None => (self, w, false)
  | Some l =>
      match find_index
              (fun d => String.eqb (Diary.id d) (Diary.id diary)) l with
      | Some i =>
          let self1 :=
            set_diaries
              (set (Diary.book_id diary) (replace_nth i diary l)
                   (diaries self))
              self in
          (self1, fst (save_data self1 w), true)
      | None => (self, w, false)
      end
  end.

(** The two nested loops of [delete_diary]: the first list, in the
    iteration order of the dict, holding a diary with the id; that
    list object loses the element in place. *)
Fixpoint delete_first (diary_id : string) (d : dict (list Diary.t))
  : option (dict (list Diary.t)) :=
  match d with
  | [] => None
  | (book_id, l) :: r =>
      match find_index (fun x => String.eqb (Diary.id x) diary_id) l with
      | Some i => Some ((book_id, remove_nth i l) :: r)
      | None => option_map (cons (book_id, l)) (delete_first diary_id r)
      end
  end.

Definition delete_diary (diary_id : string) (self : t) (w : World)
  : t * World * bool :=
  match delete_first diary_id (diaries self) with
  | Some ds =>
      let self1 := set_diaries ds self in
      (self1, fst (save_data self1 w), true)
  | None => (self, w, false)
  end.

Definition get_diary (diary_id : string) (self : t) : option Diary.t :=
  find (fun x => String.eqb (Diary.id x) diary_id)
       (List.concat (values (diaries self))).

Definition get_diaries_for_book (book_id : string) (self : t)
  : list Diary.t :=
  match get book_id (diaries self) with
  | None => []
  | Some l => sorted_desc Diary.date l
  end.

Definition search_diaries (book_id query : string) (self : t)
  : list Diary.t :=
  match get book_id (diaries self) with
  | None => []
  | Some l =>
      let query := PyStr.lower query in
      filter (fun d => PyStr.contains query (PyStr.lower (Diary.content d)))
             l
  end.

(** *** Reachable repositories *)

Inductive op : Type :=
| AddBook (book : Book.t)
| AddDiary (diary : Diary.t)
| UpdateDiary (diary : Diary.t)
| DeleteDiary (diary_id : string)
| DeleteBook (book_id : string).

Definition run (o : op) (self : t) (w : World) : t * World :=
  match o with
  | AddBook b => fst (add_book b self w)
  | AddDiary d => fst (add_diary d self w)
  | UpdateDiary d => fst (update_diary d self w)
  | DeleteDiary i => fst (delete_diary i self w)
  | DeleteBook i => fst (delete_book i self w)
  end.

(** The repositories obtained from the empty one by the mutating
    operations, whatever happens to the files in between. *)
Inductive reachable (data_file : string) : t -> Prop :=
| reach_empty : reachable data_file (empty data_file)
| reach_step : forall self o w,
    reachable data_file self ->
    reachable data_file (fst (run o self w)).

End BookManager.

Import BookManager.

(* ===================================================================== *)
(** ** Vocabulary of the properties *)
(* ===================================================================== *)

(** The diary with its date cut down to the calendar day. *)
Definition at_midnight (d : Diary.t) : Diary.t :=
  Diary.mk (Diary.id d) (Diary.book_id d) (midnight (Diary.date d))
           (Diary.content d).

(** Diaries as the user interfaces build them: a valid object whose date
    has no time of day. *)
Definition day_dated (d : Diary.t) : Prop :=
  Diary.valid d /\ is_midnight (Diary.date d) = true.

(** The year of the diary's date is written in four digits. *)
Definition four_digit_year (d : Diary.t) : Prop :=
  1000 <= year (Diary.date d).

(** A diary whose date survives the file: a valid object with a year of
    four digits. *)
Definition keeps_day (d : Diary.t) : Prop :=
  Diary.valid d /\ four_digit_year d.

(** [q] occurs in [s] as a contiguous piece. *)
Definition occurs_in (q s : string) : Prop :=
  exists pre post, s = String.append pre (String.append q post).

(** [q] occurs in one of the four fields [search_books] looks at, case
    ignored. *)
Definition book_matches (q : string) (b : Book.t) : Prop :=
  occurs_in (PyStr.lower q) (PyStr.lower (Book.title b))
  \/ occurs_in (PyStr.lower q) (PyStr.lower (Book.author b))
  \/ occurs_in (PyStr.lower q) (PyStr.lower (Book.genre b))
  \/ occurs_in (PyStr.lower q) (PyStr.lower (Book.memo b)).

Definition ascii_book (b : Book.t) : bool :=
  PyStr.is_ascii (Book.title b) && PyStr.is_ascii (Book.author b)
  && PyStr.is_ascii (Book.genre b) && PyStr.is_ascii (Book.memo b).

(** Every diary sits in the list of its own book. *)
Definition filed_by_book (ds : dict (list Diary.t)) : Prop :=
  Forall (fun kv => Forall (fun d => Diary.book_id d = fst kv) (snd kv)) ds.

(** Every book has a diary list. *)
Definition books_have_lists (self : BookManager.t) : Prop :=
  forall k, mem k (books self) = true -> mem k (diaries self) = true.

(** What every operation keeps true. *)
Definition consistent (self : BookManager.t) : Prop :=
  wf (books self) /\ wf (diaries self)
  /\ filed_by_book (diaries self) /\ books_have_lists self.

(** All the stored diaries, in the order a scan of the repository
    meets them. *)
Definition all_diaries (self : BookManager.t) : list Diary.t :=
  List.concat (values (diaries self)).

(** Every book is stored under its own id. *)
Definition keyed_by_id (self : BookManager.t) : Prop :=
  Forall (fun kv => Book.id (snd kv) = fst kv) (books self).

(** Every diary list belongs to a book. *)
Definition lists_have_books (self : BookManager.t) : Prop :=
  forall k, mem k (diaries self) = true -> mem k (books self) = true.

(** Every stored diary is dated by the day. *)
Definition all_day_dated (self : BookManager.t) : Prop :=
  Forall (Forall day_dated) (values (diaries self)).

(** The books are stored under their ids and no diary list is left
    without its book. *)
Definition coherent (self : BookManager.t) : Prop :=
  keyed_by_id self /\ lists_have_books self.

(** The six mutating methods of [BookManager]. *)
Inductive call : Type :=
| CallAddBook (book : Book.t)
| CallUpdateBook (book : Book.t)
| CallDeleteBook (book_id : string)
| CallAddDiary (diary : Diary.t)
| CallUpdateDiary (diary : Diary.t)
| CallDeleteDiary (diary_id : string).

Definition perform (c : call) (self : BookManager.t) (w : World)
  : BookManager.t * World :=
  match c with
  | CallAddBook b => fst (add_book b self w)
  | CallUpdateBook b => fst (update_book b self w)
  | CallDeleteBook i => fst (delete_book i self w)
  | CallAddDiary d => fst (add_diary d self w)
  | CallUpdateDiary d => fst (update_diary d self w)
  | CallDeleteDiary i => fst (delete_diary i self w)
  end.

(** The repositories built from the empty one by any of the six methods. *)
Inductive built (data_file : string) : BookManager.t -> Prop :=
| built_empty : built data_file (empty data_file)
| built_step : forall self c w,
    built data_file self ->
    built data_file (fst (perform c self w)).

(* ===================================================================== *)
(** ** gradio_ui.py: the handlers that work on plain values *)
(* ===================================================================== *)

Module GradioUI.

(** The handlers act on [self.book_manager]; the repository and the
    file system are threaded through them.  A table row is a list of
    cells of any type. *)

Definition required_book_fields : string :=
  "タイトル、著者、出版年は必須です。".

Definition no_book_selected : string := "本が選択されていません。".

Definition content_required : string := "内容は必須です。".

Definition diary_added : string := "日記を追加しました。".

Definition bad_date_format : string :=
  "日付の形式が正しくありません。YYYY-MM-DD形式で入力してください。".

Definition error_prefix : string := "エラーが発生しました: ".

Definition no_diary_selected : string := "日記が選択されていません。".

Definition diary_not_found : string := "指定された日記が見つかりません。".

Definition diary_updated : string := "日記を更新しました。".

Definition diary_update_failed : string := "日記の更新に失敗しました。".

Definition book_added (title : string) : string :=
  String.append "本「" (String.append title "」を登録しました。").

Definition book_row (book : Book.t) : list json :=
  [JStr (Book.id book); JStr (Book.title book); JStr (Book.author book);
   JInt (Book.published_year book); JStr (Book.genre book);
   JStr (Book.memo book)].

Definition diary_row (diary : Diary.t) : list json :=
  [JStr (Diary.id diary); JStr (strftime (Diary.date diary));
   JStr (Diary.content diary)].

(** [add_book_ui]; [published_year] is an [int], so [not published_year]
    holds for 0 and [int(published_year)] is the number itself. *)
Definition add_book_ui (env : Env) (title author : string)
    (published_year : Z) (genre memo : string)
    (self : BookManager.t) (w : World) : BookManager.t * World * string :=
  if String.eqb title "" || String.eqb author "" || (published_year =? 0)
  then (self, w, required_book_fields)
  else
    let book := Book.init env title author published_year genre memo None in
    let r := add_book book self w in
    (fst (fst r), snd (fst r), book_added title).

Definition get_book_list_ui (self : BookManager.t) : list (list json) :=
  map book_row (get_all_books self).

Definition search_books_ui (query : string) (self : BookManager.t)
  : list (list json) :=
  if String.eqb query "" then get_book_list_ui self
  else map book_row (search_books query self).

Definition get_book_dropdown_ui (self : BookManager.t)
  : list (string * string) :=
  map (fun book =>
         (Book.id book,
          String.append (Book.title book)
            (String.append " by " (Book.author book))))
      (get_all_books self).

(** [add_diary_ui].  [except ValueError] catches the failure of
    [strptime] and the failure of [add_diary] alike; the calls of the
    [try] block raise nothing else, the last branch stands for
    [except Exception]. *)
Definition add_diary_ui (env : Env) (book_id date_str content : string)
    (self : BookManager.t) (w : World) : BookManager.t * World * string :=
  if String.eqb book_id "" then (self, w, no_book_selected)
  else if String.eqb content "" then (self, w, content_required)
  else
    match strptime date_str with
    | Raise ValueError => (self, w, bad_date_format)
    | Raise _ => (self, w, error_prefix)
    | Ok date =>
        let diary := Diary.init env book_id content (Some date) None in
        let r := add_diary diary self w in
        match snd r with
        | Ok _ => (fst (fst r), snd (fst r), diary_added)
        | Raise ValueError => (fst (fst r), snd (fst r), bad_date_format)
        | Raise _ => (fst (fst r), snd (fst r), error_prefix)
        end
    end.

Definition get_diary_list_ui (book_id : string) (self : BookManager.t)
  : list (list json) :=
  if String.eqb book_id "" then []
  else map diary_row (get_diaries_for_book book_id self).

(** [update_diary_ui]: the stored diary is looked up before the date is
    parsed. *)
Definition update_diary_ui (env : Env) (diary_id date_str content : string)
    (self : BookManager.t) (w : World)
  : BookManager.t * World * (string * list (list json)) :=
  if String.eqb diary_id "" then (self, w, (no_diary_selected, []))
  else if String.eqb content "" then (self, w, (content_required, []))
  else
    match get_diary diary_id self with
    | None => (self, w, (diary_not_found, []))
    | Some diary =>
        match strptime date_str with
        | Raise ValueError => (self, w, (bad_date_format, []))
        | Raise _ => (self, w, (error_prefix, []))
        | Ok date =>
            let updated_diary :=
              Diary.init env (Diary.book_id diary) content (Some date)
                         (Some diary_id) in
            let r := update_diary updated_diary self w in
            if snd r
            then (fst (fst r), snd (fst r),
                  (diary_updated,
                   get_diary_list_ui (Diary.book_id diary) (fst (fst r))))
            else (fst (fst r), snd (fst r), (diary_update_failed, []))
        end
    end.

Definition search_diaries_ui (book_id query : string)
    (self : BookManager.t) : list (list json) :=
  if String.eqb book_id "" then []
  else if String.eqb query "" then get_diary_list_ui book_id self
  else map diary_row (search_diaries book_id query self).

End GradioUI.

(* ===================================================================== *)
(** ** Sample data used by the concrete runs below *)
(* ===================================================================== *)

Definition sample_env : Env :=
  mk_Env "7d9f0c1e-5b1a-4c57-9d0a-3f2b8c6e4a10"
         (mk_datetime 2024 6 1 12 0 0 0).

Definition sample_envs : nat -> nat -> Env := fun _ _ => sample_env.

Definition dune : Book.t := Book.mk "B1" "Dune" "Herbert" 1965 "" "".

Definition dune_revised : Book.t :=
  Book.mk "B1" "Dune" "Frank Herbert" 1965 "SF" "".

Definition hobbit : Book.t :=
  Book.mk "B2" "The Hobbit" "J.R.R. Tolkien" 1937 "Fantasy" "".

(** A diary dated by the UI: midnight of the chosen day. *)
Definition note_may : Diary.t :=
  Diary.mk "D1" "B1" (mk_datetime 2024 5 1 0 0 0 0) "Great start".

(** Diaries built with the constructor's default date, [datetime.now()]. *)
Definition note_morning : Diary.t :=
  Diary.mk "D2" "B1" (mk_datetime 2024 5 2 10 30 0 0) "Morning pages".

Definition note_evening : Diary.t :=
  Diary.mk "D3" "B1" (mk_datetime 2024 5 2 21 15 0 0) "Evening pages".

Definition orphan_note : Diary.t :=
  Diary.mk "D9" "B7" (mk_datetime 2024 5 1 0 0 0 0) "No such book".

Definition no_files : World := mk_World (fun _ => None) (fun _ => true).

Definition store_file : string := "book_data.json".

Definition one_book : BookManager.t :=
  BookManager.mk [("B1", dune)] [("B1", [note_may])] store_file.

Definition two_books : BookManager.t :=
  BookManager.mk [("B1", dune); ("B2", hobbit)]
                 [("B1", [note_may]); ("B2", [])] store_file.

Definition timed_store : BookManager.t :=
  BookManager.mk [("B1", dune)] [("B1", [note_morning; note_evening])]
                 store_file.

(** A hand-edited file: the book record is fine, the diary's date uses
    slashes. *)
Definition slashed_document : json :=
  JDict
    [("books", JDict [("B1", Book.to_dict dune)]);
     ("diaries",
      JDict
        [("B1",
          JList
            [JDict [("id", JStr "D1"); ("book_id", JStr "B1");
                    ("date", JStr "2024/05/01");
                    ("content", JStr "Great start")]])])].

Definition slashed_world : World :=
  mk_World (fun p => if String.eqb p store_file
                     then Some (Document slashed_document) else None)
           (fun _ => true).

(** A diary about a chronicle, dated in the year 999. *)
Definition note_999 : Diary.t :=
  Diary.mk "D5" "B1" (mk_datetime 999 1 1 0 0 0 0) "Old chronicle".

(** A repository whose file cannot be written. *)
Definition read_only : World := mk_World (fun _ => None) (fun _ => false).

Definition note_june : Diary.t :=
  Diary.mk "D4" "B1" (mk_datetime 2024 6 3 0 0 0 0) "Halfway through".

Definition note_may_revised : Diary.t :=
  Diary.mk "D1" "B1" (mk_datetime 2024 5 4 0 0 0 0) "Great start, slow middle".

Definition two_notes : BookManager.t :=
  BookManager.mk [("B1", dune); ("B2", hobbit)]
                 [("B1", [note_may; note_june]); ("B2", [])] store_file.

(** A record written by hand, without the optional fields. *)
Definition short_record : list (string * json) :=
  [("id", JStr "B3"); ("title", JStr "Emma"); ("author", JStr "Austen");
   ("published_year", JInt 1815)].

(* ===================================================================== *)
(** ** Facts about dictionaries *)
(* ===================================================================== *)

Section DictFacts.
Context {V : Type}.
Implicit Types (d : dict V) (k : string) (v : V).

Lemma get_set_eq k v d : get k (set k v d) = Some v.
Proof.
  induction d as [|[k' v'] r IH]; simpl.
  - now rewrite String.eqb_refl.
  - destruct (String.eqb k k') eqn:E; simpl; rewrite E; auto.
Qed.

Lemma get_set_neq k k' v d : k' <> k -> get k' (set k v d) = get k' d.
Proof.
  intros Hne. induction d as [|[k0 v0] r IH]; simpl.
  - apply String.eqb_neq in Hne. now rewrite Hne.
  - destruct (String.eqb k k0) eqn:E; simpl.
    + apply String.eqb_eq in E. subst k0.
      apply String.eqb_neq in Hne. now rewrite Hne.
    + now rewrite IH.
Qed.

Lemma mem_set_eq k v d : mem k (set k v d) = true.
Proof. unfold mem. now rewrite get_set_eq. Qed.

Lemma mem_set_neq k k' v d : k' <> k -> mem k' (set k v d) = mem k' d.
Proof. intros H. unfold mem. now rewrite get_set_neq. Qed.

Lemma mem_In_keys k d : mem k d = true <-> In k (keys d).
Proof.
  unfold mem. induction d as [|[k' v'] r IH]; simpl.
  - split; [discriminate | tauto].
  - destruct (String.eqb k k') eqn:E.
    + apply String.eqb_eq in E. subst. tauto.
    + apply String.eqb_neq in E. rewrite IH. split; [tauto|].
      intros [H|H]; [congruence | exact H].
Qed.

Lemma mem_false_not_In k d : mem k d = false <-> ~ In k (keys d).
Proof.
  rewrite <- mem_In_keys. destruct (mem k d); split; congruence.
Qed.

(** A new key is appended, an existing key keeps the key order. *)
Lemma set_absent k v d : mem k d = false -> set k v d = d ++ [(k, v)].
Proof.
  unfold mem. induction d as [|[k' v'] r IH]; simpl; auto.
  destruct (String.eqb k k'); [discriminate|].
  intros H. now rewrite IH.
Qed.

Lemma keys_set_present k v d : mem k d = true -> keys (set k v d) = keys d.
Proof.
  unfold mem. induction d as [|[k' v'] r IH]; simpl; [discriminate|].
  destruct (String.eqb k k'); simpl; auto.
  intros H. now rewrite IH.
Qed.

Lemma wf_set k v d : wf d -> wf (set k v d).
Proof.
  unfold wf. intros H. destruct (mem k d) eqn:E.
  - now rewrite keys_set_present.
  - rewrite set_absent by exact E. unfold keys. rewrite map_app. simpl.
    apply NoDup_app; auto.
    + constructor; [simpl; tauto | constructor].
    + intros x Hx [Hk|[]]. subst x.
      apply mem_false_not_In in E. now apply E.
Qed.

Lemma In_keys_del k k' d : In k' (keys (del k d)) -> In k' (keys d).
Proof.
  induction d as [|[k0 v0] r IH]; simpl; auto.
  destruct (String.eqb k k0); simpl; tauto.
Qed.

Lemma wf_del k d : wf d -> wf (del k d).
Proof.
  unfold wf. induction d as [|[k0 v0] r IH]; simpl; auto.
  intros H. inversion H as [|? ? Hn Hr]; subst.
  destruct (String.eqb k k0); simpl; auto.
  constructor; auto. intros Hin. apply Hn. now apply In_keys_del in Hin.
Qed.

Lemma get_del_neq k k' d : k' <> k -> get k' (del k d) = get k' d.
Proof.
  intros Hne. induction d as [|[k0 v0] r IH]; simpl; auto.
  destruct (String.eqb k k0) eqn:E; simpl.
  - apply String.eqb_eq in E. subst k0.
    apply String.eqb_neq in Hne. now rewrite Hne.
  - now rewrite IH.
Qed.

Lemma get_del_eq k d : wf d -> get k (del k d) = None.
Proof.
  unfold wf. induction d as [|[k0 v0] r IH]; simpl; auto.
  intros H. inversion H as [|? ? Hn Hr]; subst.
  destruct (String.eqb k k0) eqn:E; simpl.
  - apply String.eqb_eq in E. subst k0.
    destruct (get k r) eqn:G; auto.
    exfalso. apply Hn. apply mem_In_keys. unfold mem. now rewrite G.
  - rewrite E. auto.
Qed.

(** On a well-formed dict, [del] drops exactly the entries of the key. *)
Lemma del_filter k d :
  wf d -> del k d = filter (fun kv => negb (String.eqb k (fst kv))) d.
Proof.
  unfold wf. induction d as [|[k0 v0] r IH]; simpl; auto.
  intros H. inversion H as [|? ? Hn Hr]; subst.
  destruct (String.eqb k k0) eqn:E; simpl.
  - apply String.eqb_eq in E. subst k0.
    symmetry. apply forallb_filter_id. apply forallb_forall.
    intros [k1 v1] Hin. simpl.
    destruct (String.eqb k k1) eqn:E1; auto.
    apply String.eqb_eq in E1. subst k1.
    exfalso. apply Hn. change k with (fst (k, v1)). now apply in_map.
  - now rewrite IH.
Qed.

Lemma get_In k v d : get k d = Some v -> In (k, v) d.
Proof.
  induction d as [|[k0 v0] r IH]; simpl; [discriminate|].
  destruct (String.eqb k k0) eqn:E.
  - apply String.eqb_eq in E. intros [= ->]. subst. now left.
  - intros H. right. auto.
Qed.

Lemma Forall_set (P : string * V -> Prop) k v d :
  Forall P d -> P (k, v) -> Forall P (set k v d).
Proof.
  intros Hd Hv. induction Hd as [|[k0 v0] r H0 Hr IH]; simpl.
  - constructor; auto.
  - destruct (String.eqb k k0) eqn:E.
    + apply String.eqb_eq in E. subst k0. constructor; auto.
    + constructor; auto.
Qed.

Lemma Forall_del (P : string * V -> Prop) k d :
  Forall P d -> Forall P (del k d).
Proof.
  intros Hd. induction Hd as [|[k0 v0] r H0 Hr IH]; simpl; auto.
  destruct (String.eqb k k0); auto.
Qed.

(** Building a dict from items with distinct keys keeps the items. *)
Lemma of_items_from (acc items : dict V) :
  wf (acc ++ items) ->
  fold_left (fun a kv => set (fst kv) (snd kv) a) items acc = acc ++ items.
Proof.
  revert acc. induction items as [|[k v] r IH]; intros acc H; simpl.
  - now rewrite app_nil_r.
  - rewrite set_absent.
    + rewrite IH; rewrite <- app_assoc; simpl; auto.
    + apply mem_false_not_In. intros Hin.
      unfold wf, keys in H. rewrite map_app in H. simpl in H.
      apply NoDup_remove_2 in H. apply H. apply in_or_app. now left.
Qed.

Lemma of_items_wf (items : dict V) : wf items -> of_items items = items.
Proof. intros H. unfold of_items. now rewrite of_items_from. Qed.

End DictFacts.

Lemma keys_map_values {V W : Type} (f : V -> W) (d : dict V) :
  keys (map (fun kv => (fst kv, f (snd kv))) d) = keys d.
Proof. unfold keys. rewrite map_map. reflexivity. Qed.

(* ===================================================================== *)
(** ** Searching books *)
(* ===================================================================== *)

Lemma contains_empty (s : string) : PyStr.contains "" s = true.
Proof. destruct s; reflexivity. Qed.

Lemma filter_all {A : Type} (f : A -> bool) (l : list A) :
  (forall x, f x = true) -> filter f l = l.
Proof.
  intros H. induction l as [|x r IH]; simpl; auto.
  now rewrite H, IH.
Qed.

(** C10: with the empty query [search_books] returns every book, in the
    order of [get_all_books], since the empty string occurs in every
    field. *)
Theorem search_books_empty_query (self : BookManager.t) :
  search_books "" self = get_all_books self.
Proof.
  unfold search_books, get_all_books. simpl PyStr.lower.
  apply filter_all. intros b. now rewrite contains_empty.
Qed.

(* ===================================================================== *)
(** ** Book records *)
(* ===================================================================== *)

Lemma Book_init_valid env t a y g m i :
  uuid4 env <> "" -> Book.valid (Book.init env t a y g m i).
Proof.
  intros Hu. unfold Book.valid, Book.init. simpl.
  destruct i as [s|]; auto.
  destruct (String.eqb s "") eqn:E; auto.
  now apply String.eqb_neq in E.
Qed.

Lemma as_opt_str_nonempty (s : string) :
  s <> "" -> as_opt_str (JStr s) = Some (Some s).
Proof.
  intros H. unfold as_opt_str. simpl.
  apply String.eqb_neq in H. now rewrite H.
Qed.

(** C7: a Book survives [to_dict] followed by [from_dict] field by field,
    id included; a valid Book is one the constructor can build, that is,
    one with a non-empty id. *)
Theorem Book_from_dict_to_dict (env : Env) (b : Book.t) :
  Book.valid b -> Book.from_dict env (Book.to_dict b) = Ok (Some b).
Proof.
  intros Hv. destruct b as [i t a y g m]. unfold Book.valid in Hv.
  simpl in Hv. unfold Book.from_dict, Book.to_dict. simpl.
  rewrite (as_opt_str_nonempty i Hv). unfold Book.init.
  apply String.eqb_neq in Hv. now rewrite Hv.
Qed.

Lemma Book_from_dict_to_dict_witness :
  Book.valid hobbit /\
  Book.from_dict sample_env (Book.to_dict hobbit) = Ok (Some hobbit).
Proof.
  split.
  - unfold Book.valid. simpl. discriminate.
  - apply (Book_from_dict_to_dict sample_env hobbit).
    unfold Book.valid. simpl. discriminate.
Defined.

(* ===================================================================== *)
(** ** Saving *)
(* ===================================================================== *)

Lemma save_data_writes (self : BookManager.t) (w : World) :
  writable w (data_file self) = true ->
  files (fst (save_data self w)) (data_file self)
  = Some (Document (document self)).
Proof.
  intros H. unfold save_data. rewrite H. simpl.
  now rewrite String.eqb_refl.
Qed.

(* ===================================================================== *)
(** ** add_diary *)
(* ===================================================================== *)

(** C1: [add_diary] on a diary whose book is unknown raises and leaves the
    books, the diaries and the file untouched; on a diary whose book is
    known it appends the diary to the end of that book's list, saves, and
    returns the diary's id. *)
Theorem add_diary_spec (d : Diary.t) (self : BookManager.t) (w : World) :
  (mem (Diary.book_id d) (books self) = false ->
   add_diary d self w = (self, w, Raise ValueError))
  /\
  (mem (Diary.book_id d) (books self) = true ->
   exists self',
     add_diary d self w
     = (self', fst (save_data self' w), Ok (Diary.id d))
     /\ books self' = books self
     /\ data_file self' = data_file self
     /\ get (Diary.book_id d) (diaries self')
        = Some (match get (Diary.book_id d) (diaries self) with
                | Some l => l
                | None => []
                end ++ [d])
     /\ (forall k, k <> Diary.book_id d ->
                   get k (diaries self') = get k (diaries self))
     /\ (writable w (data_file self) = true ->
         files (fst (save_data self' w)) (data_file self)
         = Some (Document (document self')))).
Proof.
  split; intros Hm; unfold add_diary; rewrite Hm; [reflexivity|].
  eexists. split; [reflexivity|].
  repeat split.
  - destruct (mem (Diary.book_id d) (diaries self)); reflexivity.
  - destruct (mem (Diary.book_id d) (diaries self)); reflexivity.
  - unfold mem. destruct (get (Diary.book_id d) (diaries self)) eqn:G; simpl.
    + now rewrite get_set_eq, G.
    + now rewrite !get_set_eq.
  - intros k Hk.
    destruct (mem (Diary.book_id d) (diaries self)); simpl;
      now rewrite ?get_set_neq by exact Hk.
  - intros Hw.
    destruct (mem (Diary.book_id d) (diaries self));
      match goal with
      | |- files (fst (save_data ?s w)) _ = _ =>
          exact (save_data_writes s w Hw)
      end.
Qed.

Lemma add_diary_spec_witness :
  (mem (Diary.book_id orphan_note) (books one_book) = false /\
   add_diary orphan_note one_book no_files
   = (one_book, no_files, Raise ValueError))
  /\
  (mem (Diary.book_id note_morning) (books one_book) = true /\
   exists self',
     add_diary note_morning one_book no_files
     = (self', fst (save_data self' no_files), Ok "D2")
     /\ get "B1" (diaries self') = Some [note_may; note_morning]).
Proof.
  split; (split; [reflexivity|]).
  - apply (proj1 (add_diary_spec orphan_note one_book no_files)).
    reflexivity.
  - destruct (proj2 (add_diary_spec note_morning one_book no_files)
                eq_refl) as (self' & Hrun & _ & _ & Hget & _).
    exists self'. split; [exact Hrun | exact Hget].
Defined.

(* ===================================================================== *)
(** ** delete_book *)
(* ===================================================================== *)

(** C6: [delete_book] on an unknown id returns [False] and changes
    nothing; on a known id it removes the book from [get_all_books],
    removes the whole diary list of the book, so that
    [get_diaries_for_book] is empty afterwards, saves, and returns
    [True]. *)
Theorem delete_book_spec (book_id : string) (self : BookManager.t)
    (w : World) :
  wf (books self) -> wf (diaries self) ->
  (mem book_id (books self) = false ->
   delete_book book_id self w = (self, w, false))
  /\
  (mem book_id (books self) = true ->
   exists self',
     delete_book book_id self w = (self', fst (save_data self' w), true)
     /\ get_all_books self'
        = values (filter (fun kv => negb (String.eqb book_id (fst kv)))
                         (books self))
     /\ get_book book_id self' = None
     /\ (forall k, k <> book_id -> get_book k self' = get_book k self)
     /\ get book_id (diaries self') = None
     /\ get_diaries_for_book book_id self' = []
     /\ (forall k, k <> book_id ->
                   get k (diaries self') = get k (diaries self))
     /\ (writable w (data_file self) = true ->
         files (fst (save_data self' w)) (data_file self)
         = Some (Document (document self')))).
Proof.
  intros Hb Hd.
  split; intros Hm; unfold delete_book; rewrite Hm; [reflexivity|].
  eexists. split; [reflexivity|].
  unfold get_all_books, get_book, get_diaries_for_book.
  change (diaries (set_books (del book_id (books self)) self))
    with (diaries self).
  assert (Hgone : get book_id
                    (if mem book_id (diaries self)
                     then del book_id (diaries self)
                     else diaries self) = None).
  { destruct (mem book_id (diaries self)) eqn:E.
    - now apply get_del_eq.
    - unfold mem in E. now destruct (get book_id (diaries self)). }
  destruct (mem book_id (diaries self)); simpl in *;
    rewrite Hgone; repeat split;
    try (now rewrite del_filter);
    try (now apply get_del_eq);
    try (intros k Hk; now rewrite ?get_del_neq by exact Hk);
    intros Hw;
    match goal with
    | |- files (fst (save_data ?s w)) _ = _ =>
        exact (save_data_writes s w Hw)
    end.
Qed.

Lemma delete_book_spec_witness :
  (wf (books two_books) /\ wf (diaries two_books))
  /\ delete_book "B9" two_books no_files = (two_books, no_files, false)
  /\ exists self',
       delete_book "B1" two_books no_files
       = (self', fst (save_data self' no_files), true)
       /\ get_all_books self' = [hobbit]
       /\ get_diaries_for_book "B1" self' = [].
Proof.
  assert (Hb : wf (books two_books)).
  { unfold wf. simpl. repeat constructor; simpl; intuition discriminate. }
  assert (Hd : wf (diaries two_books)).
  { unfold wf. simpl. repeat constructor; simpl; intuition discriminate. }
  split; [now split|]. split.
  - apply (proj1 (delete_book_spec "B9" two_books no_files Hb Hd)).
    reflexivity.
  - destruct (proj2 (delete_book_spec "B1" two_books no_files Hb Hd)
                eq_refl) as (self' & Hrun & Hall & _ & _ & _ & Hnone & _).
    exists self'. repeat split; [exact Hrun | exact Hall | exact Hnone].
Defined.

(* ===================================================================== *)
(** ** add_book *)
(* ===================================================================== *)

(** C8, as the code has it: [add_book] stores the book under its id,
    overwriting in place a book with the same id and leaving the other
    books alone; it creates an empty diary list when the id has none and
    keeps an existing list as it is; it saves and returns the id. *)
Theorem add_book_spec (b : Book.t) (self : BookManager.t) (w : World) :
  exists self',
    add_book b self w = (self', fst (save_data self' w), Book.id b)
    /\ get_book (Book.id b) self' = Some b
    /\ (forall k, k <> Book.id b -> get_book k self' = get_book k self)
    /\ keys (books self')
       = (if mem (Book.id b) (books self) then keys (books self)
          else keys (books self) ++ [Book.id b])
    /\ diaries self'
       = (if mem (Book.id b) (diaries self) then diaries self
          else diaries self ++ [(Book.id b, [])])
    /\ mem (Book.id b) (diaries self') = true
    /\ (writable w (data_file self) = true ->
        files (fst (save_data self' w)) (data_file self)
        = Some (Document (document self'))).
Proof.
  unfold add_book. eexists. split; [reflexivity|].
  unfold get_book.
  change (diaries (set_books (set (Book.id b) b (books self)) self))
    with (diaries self).
  destruct (mem (Book.id b) (diaries self)) eqn:E; simpl; repeat split;
    try apply get_set_eq;
    try (intros k Hk; now apply get_set_neq);
    try (destruct (mem (Book.id b) (books self)) eqn:Eb;
         [ now apply keys_set_present
         | rewrite set_absent by exact Eb; unfold keys;
           now rewrite map_app ]);
    try exact E;
    try (now apply set_absent);
    try apply mem_set_eq;
    intros Hw;
    match goal with
    | |- files (fst (save_data ?s w)) _ = _ =>
        exact (save_data_writes s w Hw)
    end.
Qed.

Lemma add_book_spec_witness :
  writable no_files (data_file one_book) = true /\
  exists self',
    add_book dune_revised one_book no_files
    = (self', fst (save_data self' no_files), "B1")
    /\ get_book "B1" self' = Some dune_revised
    /\ diaries self' = [("B1", [note_may])]
    /\ files (fst (save_data self' no_files)) store_file
       = Some (Document (document self')).
Proof.
  split; [reflexivity|].
  destruct (add_book_spec dune_revised one_book no_files)
    as (self' & Hrun & Hget & _ & _ & Hd & _ & Hsave).
  exists self'. repeat split;
    [exact Hrun | exact Hget | exact Hd | exact (Hsave eq_refl)].
Defined.

(** C8, as the claim has it, fails when the id is already in use: the
    diary list found after [add_book] is the old one, not an empty one. *)
Lemma add_book_overwrite_keeps_diaries :
  mem (Book.id dune_revised) (books one_book) = true
  /\ get (Book.id dune_revised)
         (diaries (fst (fst (add_book dune_revised one_book no_files))))
     = Some [note_may]
  /\ get (Book.id dune_revised)
         (diaries (fst (fst (add_book dune_revised one_book no_files))))
     <> Some [].
Proof. repeat split. discriminate. Qed.

(* ===================================================================== *)
(** ** The order on datetimes *)
(* ===================================================================== *)

Lemma lex_compare_refl (a : list Z) : lex_compare a a = Eq.
Proof.
  induction a as [|x a IH]; simpl; auto. now rewrite Z.compare_refl.
Qed.

Lemma lex_compare_eq (a b : list Z) : lex_compare a b = Eq -> a = b.
Proof.
  revert b. induction a as [|x a IH]; intros [|y b]; simpl;
    try discriminate; auto.
  destruct (x ?= y) eqn:E; try discriminate.
  apply Z.compare_eq in E. intros H. f_equal; auto.
Qed.

Lemma lex_compare_antisym (a b : list Z) :
  lex_compare b a = CompOpp (lex_compare a b).
Proof.
  revert b. induction a as [|x a IH]; intros [|y b]; simpl; auto.
  rewrite (Z.compare_antisym x y).
  destruct (x ?= y); simpl; auto.
Qed.

Lemma lex_compare_lt_trans (a b c : list Z) :
  lex_compare a b = Lt -> lex_compare b c = Lt -> lex_compare a c = Lt.
Proof.
  revert b c. induction a as [|x a IH]; intros [|y b] [|z c]; simpl;
    try discriminate; auto.
  destruct (x ?= y) eqn:Exy; try discriminate;
    destruct (y ?= z) eqn:Eyz; try discriminate; intros H1 H2.
  - apply Z.compare_eq in Exy, Eyz. subst. rewrite Z.compare_refl. eauto.
  - apply Z.compare_eq in Exy. subst. now rewrite Eyz.
  - apply Z.compare_eq in Eyz. subst. now rewrite Exy.
  - rewrite Z.compare_lt_iff in Exy, Eyz.
    assert (H : x < z) by lia. rewrite <- Z.compare_lt_iff in H.
    now rewrite H.
Qed.

Lemma key_inj (a b : datetime) : Datetime.key a = Datetime.key b -> a = b.
Proof.
  destruct a, b. unfold Datetime.key. simpl. intros [=]. now subst.
Qed.

Lemma datetime_eqb_eq (a b : datetime) : Datetime.eqb a b = true <-> a = b.
Proof.
  unfold Datetime.eqb, Datetime.compare. split.
  - destruct (lex_compare _ _) eqn:E; try discriminate.
    intros _. apply key_inj. now apply lex_compare_eq.
  - intros ->. now rewrite lex_compare_refl.
Qed.

Lemma datetime_ltb_irrefl (a : datetime) : Datetime.ltb a a = false.
Proof.
  unfold Datetime.ltb, Datetime.compare. now rewrite lex_compare_refl.
Qed.

Lemma datetime_ltb_asym (a b : datetime) :
  Datetime.ltb a b = true -> Datetime.ltb b a = false.
Proof.
  unfold Datetime.ltb, Datetime.compare.
  rewrite (lex_compare_antisym (Datetime.key a) (Datetime.key b)).
  destruct (lex_compare _ _); simpl; auto; discriminate.
Qed.

(** "Not earlier than" is transitive. *)
Lemma datetime_geb_trans (a b c : datetime) :
  Datetime.ltb a b = false -> Datetime.ltb b c = false ->
  Datetime.ltb a c = false.
Proof.
  unfold Datetime.ltb, Datetime.compare. intros Hab Hbc.
  destruct (lex_compare (Datetime.key a) (Datetime.key c)) eqn:Eac; auto.
  exfalso.
  destruct (lex_compare (Datetime.key a) (Datetime.key b)) eqn:Eab;
    try discriminate.
  - apply lex_compare_eq in Eab. rewrite <- Eab, Eac in Hbc. discriminate.
  - assert (Hba : lex_compare (Datetime.key b) (Datetime.key a) = Lt).
    { rewrite lex_compare_antisym, Eab. reflexivity. }
    rewrite (lex_compare_lt_trans _ _ _ Hba Eac) in Hbc. discriminate.
Qed.

(* ===================================================================== *)
(** ** [sorted(..., reverse=True)] *)
(* ===================================================================== *)

Section SortFacts.
Context {A : Type} (key : A -> datetime).

Lemma insert_desc_perm (x : A) (l : list A) :
  Permutation (insert_desc key x l) (x :: l).
Proof.
  induction l as [|y r IH]; simpl; auto.
  destruct (Datetime.ltb (key x) (key y)); auto.
  rewrite IH. apply perm_swap.
Qed.

Lemma sorted_desc_perm (l : list A) : Permutation (sorted_desc key l) l.
Proof.
  induction l as [|x r IH]; simpl; auto.
  rewrite insert_desc_perm. now constructor.
Qed.

Lemma insert_desc_Forall (P : A -> Prop) (x : A) (l : list A) :
  P x -> Forall P l -> Forall P (insert_desc key x l).
Proof.
  intros Hx Hl. induction Hl as [|y r Hy Hr IH]; simpl.
  - constructor; auto.
  - destruct (Datetime.ltb (key x) (key y)); constructor; auto.
Qed.

Lemma insert_desc_sorted (x : A) (l : list A) :
  StronglySorted (not_before key) l ->
  StronglySorted (not_before key) (insert_desc key x l).
Proof.
  intros Hs. induction Hs as [|y r Hr IH Hy]; simpl.
  - constructor; constructor.
  - destruct (Datetime.ltb (key x) (key y)) eqn:E.
    + constructor; auto. apply insert_desc_Forall; auto.
      unfold not_before. now apply datetime_ltb_asym.
    + constructor.
      * constructor; auto.
      * constructor; auto.
        eapply Forall_impl; [|exact Hy].
        intros z Hz. unfold not_before in *.
        eapply datetime_geb_trans; eauto.
Qed.

Lemma sorted_desc_sorted (l : list A) :
  StronglySorted (not_before key) (sorted_desc key l).
Proof.
  induction l as [|x r IH]; simpl.
  - constructor.
  - now apply insert_desc_sorted.
Qed.

(** Stability: the elements with a given key come out in the order
    they came in. *)
Lemma insert_desc_filter (t : datetime) (x : A) (l : list A) :
  filter (fun a => Datetime.eqb (key a) t) (insert_desc key x l)
  = filter (fun a => Datetime.eqb (key a) t) (x :: l).
Proof.
  induction l as [|y r IH]; auto.
  simpl insert_desc. destruct (Datetime.ltb (key x) (key y)) eqn:E; auto.
  simpl in *. rewrite IH.
  destruct (Datetime.eqb (key x) t) eqn:Ex; auto.
  destruct (Datetime.eqb (key y) t) eqn:Ey; auto.
  apply datetime_eqb_eq in Ex, Ey. rewrite Ex, Ey in E.
  rewrite datetime_ltb_irrefl in E. discriminate.
Qed.

Lemma sorted_desc_stable (t : datetime) (l : list A) :
  filter (fun a => Datetime.eqb (key a) t) (sorted_desc key l)
  = filter (fun a => Datetime.eqb (key a) t) l.
Proof.
  induction l as [|x r IH]; auto.
  simpl sorted_desc. rewrite insert_desc_filter. simpl. now rewrite IH.
Qed.

End SortFacts.

(* ===================================================================== *)
(** ** get_diaries_for_book *)
(* ===================================================================== *)

(** C2: [get_diaries_for_book] is empty for a book id that is not a key
    of the diaries; otherwise it returns exactly the stored diaries
    (a permutation of the list), latest date first, and diaries of equal
    date in their stored order. *)
Theorem get_diaries_for_book_spec (book_id : string)
    (self : BookManager.t) :
  (mem book_id (diaries self) = false ->
   get_diaries_for_book book_id self = [])
  /\
  (forall stored, get book_id (diaries self) = Some stored ->
     Permutation (get_diaries_for_book book_id self) stored
     /\ StronglySorted (not_before Diary.date)
          (get_diaries_for_book book_id self)
     /\ forall t,
          filter (fun d => Datetime.eqb (Diary.date d) t)
                 (get_diaries_for_book book_id self)
          = filter (fun d => Datetime.eqb (Diary.date d) t) stored).
Proof.
  unfold get_diaries_for_book, mem. split.
  - destruct (get book_id (diaries self)); [discriminate | reflexivity].
  - intros stored ->. repeat split.
    + apply sorted_desc_perm.
    + apply sorted_desc_sorted.
    + intros t. apply sorted_desc_stable.
Qed.

(* ===================================================================== *)
(** ** [strptime] after [strftime] *)
(* ===================================================================== *)

Lemma digit_val_char (d : Z) :
  0 <= d <= 9 -> digit_val (digit_char d) = Some d.
Proof.
  intros H. unfold digit_val, digit_char.
  rewrite nat_ascii_embedding by lia.
  rewrite Z2Nat.id by lia.
  replace ((48 <=? 48 + d) && (48 + d <=? 57)) with true
    by (symmetry; apply andb_true_intro; split; apply Z.leb_le; lia).
  f_equal. lia.
Qed.

Lemma rx_digit_char (lo hi d : Z) (r : list ascii) :
  0 <= d <= 9 -> lo <= d <= hi ->
  rx_digit lo hi (digit_char d :: r) = Some (d, r).
Proof.
  intros Hd Hr. unfold rx_digit. rewrite digit_val_char by exact Hd.
  replace ((lo <=? d) && (d <=? hi)) with true; auto.
  symmetry. apply andb_true_intro. split; apply Z.leb_le; lia.
Qed.

Lemma rx_year_pad4 (y : Z) (r : list ascii) :
  0 <= y <= 9999 -> rx_year (pad4 y ++ r) = Some (y, r).
Proof.
  intros H. unfold rx_year, rx_two, pad4. simpl app.
  assert (H1 : 0 <= y / 1000 <= 9) by (Z.div_mod_to_equations; lia).
  assert (H2 : 0 <= y / 100 mod 10 <= 9)
    by (pose proof (Z.mod_pos_bound (y / 100) 10); lia).
  assert (H3 : 0 <= y / 10 mod 10 <= 9)
    by (pose proof (Z.mod_pos_bound (y / 10) 10); lia).
  assert (H4 : 0 <= y mod 10 <= 9)
    by (pose proof (Z.mod_pos_bound y 10); lia).
  rewrite !rx_digit_char by (auto; lia).
  f_equal. f_equal. clear H1 H2 H3 H4.
  Z.div_mod_to_equations. lia.
Qed.

Lemma first_match_month {A : Type} (m : Z) (r : list ascii)
    (k : Z -> list ascii -> option A) (a : A) :
  1 <= m <= 12 -> k m r = Some a ->
  first_match month_alts k (pad2 m ++ r) = Some a.
Proof.
  intros Hm Hk.
  assert (H : m = 1 \/ m = 2 \/ m = 3 \/ m = 4 \/ m = 5 \/ m = 6 \/ m = 7
              \/ m = 8 \/ m = 9 \/ m = 10 \/ m = 11 \/ m = 12) by lia.
  unfold pad2, month_alts, first_match, rx_two, rx_digit.
  repeat (destruct H as [H|H]); subst m; simpl; now rewrite Hk.
Qed.

Lemma first_match_day {A : Type} (d : Z) (r : list ascii)
    (k : Z -> list ascii -> option A) (a : A) :
  1 <= d <= 31 -> k d r = Some a ->
  first_match day_alts k (pad2 d ++ r) = Some a.
Proof.
  intros Hd Hk.
  assert (H : 0 <= d / 10 <= 3) by (Z.div_mod_to_equations; lia).
  assert (H' : 0 <= d mod 10 <= 9)
    by (pose proof (Z.mod_pos_bound d 10); lia).
  pose proof (Z.div_mod d 10) as Hdm.
  assert (Hc : d / 10 = 0 \/ d / 10 = 1 \/ d / 10 = 2 \/ d / 10 = 3) by lia.
  assert (Hu : d mod 10 = 0 \/ d mod 10 = 1 \/ d mod 10 = 2 \/ d mod 10 = 3
               \/ d mod 10 = 4 \/ d mod 10 = 5 \/ d mod 10 = 6
               \/ d mod 10 = 7 \/ d mod 10 = 8 \/ d mod 10 = 9) by lia.
  unfold pad2, day_alts, first_match, rx_two, rx_digit, rx_space_digit.
  replace d with (10 * (d / 10) + d mod 10) in Hk by lia.
  repeat (destruct Hc as [Hc|Hc]);
    repeat (destruct Hu as [Hu|Hu]);
    rewrite Hc, Hu in *; try lia; simpl; simpl in Hk; now rewrite Hk.
Qed.

Lemma valid_date_bounds (y m d : Z) :
  valid_date y m d = true ->
  1 <= y <= 9999 /\ 1 <= m <= 12 /\ 1 <= d <= 31.
Proof.
  unfold valid_date. rewrite !andb_true_iff, !Z.leb_le.
  intros (((((Hy1 & Hy2) & Hm1) & Hm2) & Hd1) & Hd2).
  assert (days_in_month y m <= 31).
  { unfold days_in_month.
    destruct (m =? 2); [destruct (is_leap y); lia|].
    destruct ((m =? 4) || (m =? 6) || (m =? 9) || (m =? 11)); lia. }
  lia.
Qed.

Lemma rx_ymd_strftime (y m d : Z) :
  valid_date y m d = true ->
  rx_ymd (pad4 y ++ dash :: pad2 m ++ dash :: pad2 d) = Some (y, m, d, []).
Proof.
  intros Hv. destruct (valid_date_bounds y m d Hv) as (Hy & Hm & Hd).
  unfold rx_ymd. rewrite rx_year_pad4 by lia.
  simpl expect.
  apply first_match_month; [exact Hm|].
  simpl expect.
  rewrite <- (app_nil_r (pad2 d)).
  now apply first_match_day.
Qed.

Lemma year_chars_four_digits (y : Z) : 1000 <= y -> year_chars y = pad4 y.
Proof.
  intros H. unfold year_chars.
  destruct (y <? 10) eqn:E1; [apply Z.ltb_lt in E1; lia|].
  destruct (y <? 100) eqn:E2; [apply Z.ltb_lt in E2; lia|].
  destruct (y <? 1000) eqn:E3; [apply Z.ltb_lt in E3; lia|].
  reflexivity.
Qed.

(** Formatting a datetime with a year of four digits and parsing it back
    keeps the calendar day and nothing else. *)
Lemma strptime_strftime (dt : datetime) :
  Datetime.valid dt = true -> 1000 <= year dt ->
  strptime (strftime dt) = Ok (midnight dt).
Proof.
  unfold Datetime.valid. rewrite andb_true_iff. intros [Hd _] Hy.
  unfold strptime, strftime, strftime_chars.
  rewrite list_ascii_of_string_of_list_ascii.
  rewrite year_chars_four_digits by exact Hy.
  rewrite rx_ymd_strftime by exact Hd.
  now rewrite Hd.
Qed.

Lemma rx_year_short (a : list ascii) (r : list ascii) :
  (List.length a < 4)%nat -> rx_year (a ++ dash :: r) = None.
Proof.
  intros H. assert (Hd : digit_val dash = None) by reflexivity.
  unfold rx_year, rx_two, rx_digit.
  destruct a as [|c1 [|c2 [|c3 [|c4 a]]]]; simpl in H; try lia;
    cbn [app].
  - now rewrite Hd.
  - destruct (digit_val c1) as [v1|]; [|reflexivity].
    destruct ((0 <=? v1) && (v1 <=? 9)); [|reflexivity].
    now rewrite Hd.
  - destruct (digit_val c1) as [v1|]; [|reflexivity].
    destruct ((0 <=? v1) && (v1 <=? 9)); [|reflexivity].
    destruct (digit_val c2) as [v2|]; [|reflexivity].
    destruct ((0 <=? v2) && (v2 <=? 9)); [|reflexivity].
    now rewrite Hd.
  - destruct (digit_val c1) as [v1|]; [|reflexivity].
    destruct ((0 <=? v1) && (v1 <=? 9)); [|reflexivity].
    destruct (digit_val c2) as [v2|]; [|reflexivity].
    destruct ((0 <=? v2) && (v2 <=? 9)); [|reflexivity].
    destruct (digit_val c3) as [v3|]; [|reflexivity].
    destruct ((0 <=? v3) && (v3 <=? 9)); [|reflexivity].
    now rewrite Hd.
Qed.

(** A year below 1000 is written with fewer than four digits, which
    [strptime] does not take back. *)
Lemma strptime_strftime_short_year (dt : datetime) :
  year dt < 1000 -> strptime (strftime dt) = Raise ValueError.
Proof.
  intros Hy. unfold strptime, strftime, strftime_chars, rx_ymd.
  rewrite list_ascii_of_string_of_list_ascii.
  rewrite rx_year_short; [reflexivity|].
  unfold year_chars.
  destruct (year dt <? 10); [simpl; lia|].
  destruct (year dt <? 100); [simpl; lia|].
  destruct (year dt <? 1000) eqn:E; [simpl; lia|].
  apply Z.ltb_ge in E. lia.
Qed.

Lemma midnight_id (dt : datetime) :
  is_midnight dt = true -> midnight dt = dt.
Proof.
  unfold is_midnight, midnight. rewrite !andb_true_iff, !Z.eqb_eq.
  destruct dt; simpl. intros (((-> & ->) & ->) & ->). reflexivity.
Qed.

Lemma at_midnight_id (d : Diary.t) :
  is_midnight (Diary.date d) = true -> at_midnight d = d.
Proof.
  intros H. unfold at_midnight. rewrite midnight_id by exact H.
  now destruct d.
Qed.

(* ===================================================================== *)
(** ** Diary records *)
(* ===================================================================== *)

Lemma Diary_init_valid env b c date i :
  uuid4 env <> "" ->
  Datetime.valid (match date with Some d => d | None => now env end) = true ->
  Diary.valid (Diary.init env b c date i).
Proof.
  intros Hu Hd. unfold Diary.valid, Diary.init. simpl. split; auto.
  destruct i as [s|]; auto.
  destruct (String.eqb s "") eqn:E; auto.
  now apply String.eqb_neq in E.
Qed.

Lemma from_dict_to_dict_at_midnight (env : Env) (d : Diary.t) :
  keeps_day d ->
  Diary.from_dict env (Diary.to_dict d) = Ok (Some (at_midnight d)).
Proof.
  intros [[Hi Hd] Hy].
  unfold Diary.from_dict, Diary.to_dict. simpl.
  rewrite strptime_strftime by assumption. simpl.
  rewrite (as_opt_str_nonempty _ Hi). unfold Diary.init, at_midnight.
  apply String.eqb_neq in Hi. now rewrite Hi.
Qed.

(** C3, as the code has it: for a valid Diary whose year has four
    digits, [to_dict] followed by [from_dict] keeps the id, the book id
    and the content and cuts the date down to the calendar day, which is
    how the date comes back from the "YYYY-MM-DD" text; such a Diary
    whose date has no time of day comes back unchanged. *)
Theorem Diary_from_dict_to_dict (env : Env) (d : Diary.t) :
  Diary.valid d -> four_digit_year d ->
  strptime (strftime (Diary.date d)) = Ok (midnight (Diary.date d))
  /\ Diary.from_dict env (Diary.to_dict d) = Ok (Some (at_midnight d))
  /\ (is_midnight (Diary.date d) = true ->
      Diary.from_dict env (Diary.to_dict d) = Ok (Some d)).
Proof.
  intros Hv Hy.
  pose proof (from_dict_to_dict_at_midnight env d (conj Hv Hy)) as Hrt.
  destruct Hv as [Hi Hd].
  split; [now apply strptime_strftime|].
  split; [exact Hrt|].
  intros Hm. now rewrite Hrt, at_midnight_id.
Qed.

Lemma Diary_from_dict_to_dict_witness :
  Diary.valid note_may
  /\ four_digit_year note_may
  /\ is_midnight (Diary.date note_may) = true
  /\ Diary.from_dict sample_env (Diary.to_dict note_may)
     = Ok (Some note_may).
Proof.
  assert (Hv : Diary.valid note_may).
  { split; [simpl; discriminate | reflexivity]. }
  assert (Hy : four_digit_year note_may).
  { unfold four_digit_year. simpl. lia. }
  split; [exact Hv|]. split; [exact Hy|]. split; [reflexivity|].
  apply (proj2 (proj2 (Diary_from_dict_to_dict sample_env note_may Hv Hy))).
  reflexivity.
Defined.

(** A year below 1000 does not come back at all: the date is written
    "999-01-01", which [strptime] refuses. *)
Example Diary_from_dict_to_dict_year_999 :
  Diary.to_dict note_999
  = JDict [("id", JStr "D5"); ("book_id", JStr "B1");
           ("date", JStr "999-01-01"); ("content", JStr "Old chronicle")]
  /\ Diary.from_dict sample_env (Diary.to_dict note_999) = Raise ValueError.
Proof. split; reflexivity. Qed.

(** C3, as the claim has it, fails on a Diary built with the default date
    [datetime.now()]: the time of day does not come back. *)
Lemma Diary_roundtrip_drops_time :
  Diary.valid note_morning
  /\ Diary.from_dict sample_env (Diary.to_dict note_morning)
     = Ok (Some (at_midnight note_morning))
  /\ Diary.from_dict sample_env (Diary.to_dict note_morning)
     <> Ok (Some note_morning).
Proof.
  split; [split; [simpl; discriminate | reflexivity]|].
  split; [reflexivity|]. vm_compute. discriminate.
Qed.

(* ===================================================================== *)
(** ** Loading what was saved *)
(* ===================================================================== *)

Lemma map_pair_id {V : Type} (d : dict V) :
  map (fun kv => (fst kv, snd kv)) d = d.
Proof.
  induction d as [|[k v] r IH]; simpl; auto. now rewrite IH.
Qed.

Lemma all_typed_some {A B : Type} (g : A -> B) (l : list A) :
  all_typed (map (fun x => Some (g x)) l) = Some (map g l).
Proof.
  induction l as [|x r IH]; simpl; auto. now rewrite IH.
Qed.

Lemma all_typed_items_some {V W : Type} (g : V -> W) (d : dict V) :
  all_typed_items (map (fun kv => (fst kv, Some (g (snd kv)))) d)
  = Some (map (fun kv => (fst kv, g (snd kv))) d).
Proof.
  unfold all_typed_items. rewrite map_map. simpl.
  apply (all_typed_some (fun kv => (fst kv, g (snd kv)))).
Qed.

Lemma traverse_book_records (env : nat -> Env) (n : nat) (bs : dict Book.t) :
  Forall Book.valid (values bs) ->
  traverse (fun i kv => b <- Book.from_dict (env i) (snd kv) ;; Ok (fst kv, b))
           n (map (fun kv => (fst kv, Book.to_dict (snd kv))) bs)
  = Ok (map (fun kv => (fst kv, Some (snd kv))) bs).
Proof.
  revert n. induction bs as [|[k b] r IH]; intros n H; auto.
  inversion H as [|? ? Hb Hr]; subst.
  cbn [traverse map fst snd].
  rewrite Book_from_dict_to_dict by exact Hb.
  cbn [bind]. now rewrite IH.
Qed.

Lemma traverse_diary_records (env : nat -> Env) (n : nat)
    (l : list Diary.t) :
  Forall keeps_day l ->
  traverse (fun i x => Diary.from_dict (env i) x) n (map Diary.to_dict l)
  = Ok (map (fun d => Some (at_midnight d)) l).
Proof.
  revert n. induction l as [|d r IH]; intros n H; auto.
  inversion H as [|? ? Hd Hr]; subst.
  cbn [traverse map].
  rewrite (from_dict_to_dict_at_midnight (env n) d Hd).
  cbn [bind]. now rewrite IH.
Qed.

Lemma decode_diary_list_records (env : nat -> Env) (l : list Diary.t) :
  Forall keeps_day l ->
  decode_diary_list env (JList (map Diary.to_dict l))
  = Ok (Some (map at_midnight l)).
Proof.
  intros H. unfold decode_diary_list. cbn [iter bind].
  rewrite traverse_diary_records by exact H. cbn [bind].
  now rewrite all_typed_some.
Qed.

Lemma traverse_diary_lists (env : nat -> nat -> Env) (n : nat)
    (ds : dict (list Diary.t)) :
  Forall (Forall keeps_day) (values ds) ->
  traverse (fun i kv =>
              l <- decode_diary_list (env i) (snd kv) ;; Ok (fst kv, l))
           n (map (fun kv => (fst kv, JList (map Diary.to_dict (snd kv)))) ds)
  = Ok (map (fun kv => (fst kv, Some (map at_midnight (snd kv)))) ds).
Proof.
  revert n. induction ds as [|[k l] r IH]; intros n H; auto.
  inversion H as [|? ? Hl Hr]; subst.
  cbn [traverse map fst snd].
  rewrite decode_diary_list_records by exact Hl.
  cbn [bind]. now rewrite IH.
Qed.

Lemma decode_books_document (env : nat -> Env) (self : BookManager.t) :
  wf (books self) -> Forall Book.valid (values (books self)) ->
  decode_books env (document self) = Ok (Some (books self)).
Proof.
  intros Hw Hv. unfold decode_books, document.
  cbn [get_default get String.eqb Ascii.eqb Bool.eqb bind items].
  rewrite of_items_wf by (unfold wf; now rewrite keys_map_values).
  rewrite traverse_book_records by exact Hv. cbn [bind].
  rewrite (all_typed_items_some (fun b => b)). cbn [option_map].
  rewrite map_pair_id. now rewrite of_items_wf.
Qed.

Lemma decode_diaries_document (env : nat -> nat -> Env)
    (self : BookManager.t) :
  wf (diaries self) -> Forall (Forall keeps_day) (values (diaries self)) ->
  decode_diaries env (document self)
  = Ok (Some (map (fun kv => (fst kv, map at_midnight (snd kv)))
                  (diaries self))).
Proof.
  intros Hw Hv. unfold decode_diaries, document.
  cbn [get_default get String.eqb Ascii.eqb Bool.eqb bind items].
  rewrite of_items_wf
    by (unfold wf;
        now rewrite (keys_map_values (fun l => JList (map Diary.to_dict l)))).
  rewrite traverse_diary_lists by exact Hv. cbn [bind].
  rewrite (all_typed_items_some (map at_midnight)). cbn [option_map].
  now rewrite of_items_wf
    by (unfold wf; now rewrite (keys_map_values (map at_midnight))).
Qed.

(** What a fresh repository holds after loading a saved one: the same
    books, and the diaries with their dates cut down to the day. *)
Lemma init_after_save (env : nat -> nat -> Env) (self : BookManager.t)
    (w : World) :
  wf (books self) -> wf (diaries self) ->
  Forall Book.valid (values (books self)) ->
  Forall (Forall keeps_day) (values (diaries self)) ->
  writable w (data_file self) = true ->
  BookManager.init env (data_file self) (fst (save_data self w))
  = Some (BookManager.mk
            (books self)
            (map (fun kv => (fst kv, map at_midnight (snd kv)))
                 (diaries self))
            (data_file self)).
Proof.
  intros Hb Hd Hvb Hvd Hw. unfold BookManager.init, load_data.
  simpl data_file. rewrite save_data_writes by exact Hw.
  rewrite decode_books_document by assumption.
  now rewrite decode_diaries_document by assumption.
Qed.

Lemma map_at_midnight_id (l : list Diary.t) :
  Forall day_dated l -> map at_midnight l = l.
Proof.
  intros H. induction H as [|d r [_ Hd] Hr IH]; simpl; auto.
  now rewrite at_midnight_id, IH.
Qed.

Lemma diaries_at_midnight_id (ds : dict (list Diary.t)) :
  Forall (Forall day_dated) (values ds) ->
  map (fun kv => (fst kv, map at_midnight (snd kv))) ds = ds.
Proof.
  induction ds as [|[k l] r IH]; simpl; auto.
  intros H. inversion H as [|? ? Hl Hr]; subst.
  now rewrite map_at_midnight_id, IH.
Qed.

Lemma keeps_day_lists (ls : list (list Diary.t)) :
  Forall (Forall day_dated) ls -> Forall (Forall four_digit_year) ls ->
  Forall (Forall keeps_day) ls.
Proof.
  rewrite !Forall_forall. intros Hd Hy l Hl.
  specialize (Hd l Hl). specialize (Hy l Hl).
  rewrite Forall_forall in *. intros d Hin.
  destruct (Hd d Hin) as [Hv _]. split; [exact Hv | now apply Hy].
Qed.

(** C5, as the code has it: when the stored diaries are dated by the day
    (no time of day) with years of four digits and the save goes
    through, a fresh repository loaded from the file gives the same
    [get_all_books] and the same [get_diaries_for_book] for every book
    id. *)
Theorem save_then_load (env : nat -> nat -> Env) (self : BookManager.t)
    (w : World) :
  wf (books self) -> wf (diaries self) ->
  Forall Book.valid (values (books self)) ->
  Forall (Forall day_dated) (values (diaries self)) ->
  Forall (Forall four_digit_year) (values (diaries self)) ->
  writable w (data_file self) = true ->
  exists fresh,
    BookManager.init env (data_file self) (fst (save_data self w))
    = Some fresh
    /\ get_all_books fresh = get_all_books self
    /\ forall book_id,
         get_diaries_for_book book_id fresh
         = get_diaries_for_book book_id self.
Proof.
  intros Hb Hd Hvb Hvd Hy Hw.
  pose proof (keeps_day_lists _ Hvd Hy) as Hk.
  rewrite (init_after_save env self w Hb Hd Hvb Hk Hw).
  rewrite diaries_at_midnight_id by exact Hvd.
  eexists. split; [reflexivity|]. split; reflexivity.
Qed.

Lemma save_then_load_witness :
  (wf (books two_books) /\ wf (diaries two_books)
   /\ Forall Book.valid (values (books two_books))
   /\ Forall (Forall day_dated) (values (diaries two_books))
   /\ Forall (Forall four_digit_year) (values (diaries two_books))
   /\ writable no_files (data_file two_books) = true)
  /\ exists fresh,
       BookManager.init sample_envs store_file
         (fst (save_data two_books no_files)) = Some fresh
       /\ get_all_books fresh = [dune; hobbit]
       /\ forall book_id,
            get_diaries_for_book book_id fresh
            = get_diaries_for_book book_id two_books.
Proof.
  assert (Hb : wf (books two_books)).
  { unfold wf. simpl. repeat constructor; simpl; intuition discriminate. }
  assert (Hd : wf (diaries two_books)).
  { unfold wf. simpl. repeat constructor; simpl; intuition discriminate. }
  assert (Hvb : Forall Book.valid (values (books two_books))).
  { simpl. repeat constructor; unfold Book.valid; simpl; discriminate. }
  assert (Hvd : Forall (Forall day_dated) (values (diaries two_books))).
  { simpl. repeat constructor. simpl. discriminate. }
  assert (Hy : Forall (Forall four_digit_year) (values (diaries two_books))).
  { simpl. repeat constructor. unfold four_digit_year. simpl. lia. }
  split; [repeat split; assumption|].
  destruct (save_then_load sample_envs two_books no_files Hb Hd Hvb Hvd Hy
              eq_refl) as (fresh & Hi & Hall & Hds).
  exists fresh. repeat split; [exact Hi | exact Hall | exact Hds].
Defined.

(** C5, as the claim has it, fails on a repository holding two diaries
    written on the same day at different times: before the save the later
    one comes first, after the reload both are dated at midnight and come
    in stored order. *)
Lemma save_then_load_loses_time :
  writable no_files (data_file timed_store) = true
  /\ get_diaries_for_book "B1" timed_store = [note_evening; note_morning]
  /\ option_map (get_diaries_for_book "B1")
       (BookManager.init sample_envs (data_file timed_store)
          (fst (save_data timed_store no_files)))
     = Some [at_midnight note_morning; at_midnight note_evening]
  /\ ~ exists fresh,
         BookManager.init sample_envs (data_file timed_store)
           (fst (save_data timed_store no_files)) = Some fresh
         /\ get_all_books fresh = get_all_books timed_store
         /\ forall book_id,
              get_diaries_for_book book_id fresh
              = get_diaries_for_book book_id timed_store.
Proof.
  split; [reflexivity|]. split; [reflexivity|]. split; [reflexivity|].
  intros (fresh & Hi & _ & H).
  vm_compute in Hi. injection Hi as <-.
  specialize (H "B1"). vm_compute in H. discriminate.
Qed.

(* ===================================================================== *)
(** ** load_data on a file that cannot be decoded *)
(* ===================================================================== *)

Lemma load_data_unreadable (env : nat -> nat -> Env) (self : BookManager.t)
    (w : World) :
  files w (data_file self) = Some Garbled ->
  load_data env self w = Some (self, false).
Proof. intros H. unfold load_data. now rewrite H. Qed.

Lemma load_data_books_raise (env : nat -> nat -> Env) (self : BookManager.t)
    (w : World) (data : json) (e : exn) :
  files w (data_file self) = Some (Document data) ->
  decode_books (env O) data = Raise e ->
  load_data env self w = Some (self, false).
Proof. intros H He. unfold load_data. now rewrite H, He. Qed.

(** A failed load never touches the diaries. *)
Lemma load_data_failure_keeps_diaries (env : nat -> nat -> Env)
    (self self' : BookManager.t) (w : World) :
  load_data env self w = Some (self', false) ->
  diaries self' = diaries self /\ data_file self' = data_file self.
Proof.
  unfold load_data.
  destruct (files w (data_file self)) as [[|data]|];
    try (intros [= <-]; now split).
  destruct (decode_books (env O) data) as [[bs|]|];
    try discriminate; try (intros [= <-]; now split).
  destruct (decode_diaries _ data) as [[ds|]|];
    try discriminate. intros [= <-]. now split.
Qed.

(** C4 on a file whose book records decode and whose diary records do
    not: [load_data] reports the failure, and the books read from the
    file have already replaced the ones in memory. *)
Theorem load_data_failure_replaces_books :
  files slashed_world (data_file (empty store_file))
  = Some (Document slashed_document)
  /\ decode_diaries (fun j => sample_envs (S j)) slashed_document
     = Raise ValueError
  /\ load_data sample_envs (empty store_file) slashed_world
     = Some (BookManager.mk [("B1", dune)] [] store_file, false)
  /\ books (BookManager.mk [("B1", dune)] [] store_file)
     <> books (empty store_file).
Proof.
  split; [reflexivity|]. split; [reflexivity|]. split; [reflexivity|].
  simpl. discriminate.
Qed.

Lemma get_diaries_for_book_spec_witness :
  (mem "B9" (diaries timed_store) = false /\
   get_diaries_for_book "B9" timed_store = [])
  /\
  (get "B1" (diaries timed_store) = Some [note_morning; note_evening] /\
   Permutation (get_diaries_for_book "B1" timed_store)
               [note_morning; note_evening] /\
   StronglySorted (not_before Diary.date)
                  (get_diaries_for_book "B1" timed_store)).
Proof.
  split; (split; [reflexivity|]).
  - apply (proj1 (get_diaries_for_book_spec "B9" timed_store)).
    reflexivity.
  - destruct (proj2 (get_diaries_for_book_spec "B1" timed_store)
                [note_morning; note_evening] eq_refl) as (Hp & Hs & _).
    split; [exact Hp | exact Hs].
Defined.

(** The example of the specification: entries dated 2024-01-01,
    2024-03-01 and 2024-02-01, stored in that order, come back as
    03-01, 02-01, 01-01. *)
Example get_diaries_for_book_three_dates :
  let jan := Diary.mk "D1" "B1" (mk_datetime 2024 1 1 0 0 0 0) "a" in
  let mar := Diary.mk "D2" "B1" (mk_datetime 2024 3 1 0 0 0 0) "b" in
  let feb := Diary.mk "D3" "B1" (mk_datetime 2024 2 1 0 0 0 0) "c" in
  get_diaries_for_book "B1"
    (BookManager.mk [("B1", dune)] [("B1", [jan; mar; feb])] store_file)
  = [mar; feb; jan].
Proof. reflexivity. Qed.

(* ===================================================================== *)
(** ** The invariant of the repository *)
(* ===================================================================== *)

Section ListOpFacts.
Context {A : Type} (P : A -> Prop).

Lemma replace_nth_Forall (i : nat) (x : A) (l : list A) :
  P x -> Forall P l -> Forall P (replace_nth i x l).
Proof.
  intros Hx Hl. revert i.
  induction Hl as [|y r Hy Hr IH]; intros [|i]; simpl; auto.
Qed.

Lemma remove_nth_Forall (i : nat) (l : list A) :
  Forall P l -> Forall P (remove_nth i l).
Proof.
  intros Hl. revert i.
  induction Hl as [|y r Hy Hr IH]; intros [|i]; simpl; auto.
Qed.

End ListOpFacts.

Lemma mem_set_mono {V : Type} (k k' : string) (v : V) (d : dict V) :
  mem k d = true -> mem k (set k' v d) = true.
Proof.
  intros H. destruct (String.eqb k k') eqn:E.
  - apply String.eqb_eq in E. subst. apply mem_set_eq.
  - apply String.eqb_neq in E. now rewrite mem_set_neq.
Qed.

Lemma filed_get (ds : dict (list Diary.t)) (k : string) (l : list Diary.t) :
  filed_by_book ds -> get k ds = Some l ->
  Forall (fun d => Diary.book_id d = k) l.
Proof.
  intros Hf Hg. apply get_In in Hg.
  unfold filed_by_book in Hf. rewrite Forall_forall in Hf.
  exact (Hf _ Hg).
Qed.

Lemma delete_first_keys (i : string) (ds ds' : dict (list Diary.t)) :
  delete_first i ds = Some ds' -> keys ds' = keys ds.
Proof.
  revert ds'. induction ds as [|[k l] r IH]; simpl; [discriminate|].
  intros ds'. destruct (find_index _ l).
  - intros [= <-]. reflexivity.
  - destruct (delete_first i r); simpl; [|discriminate].
    intros [= <-]. simpl. f_equal. now apply IH.
Qed.

Lemma delete_first_filed (i : string) (ds ds' : dict (list Diary.t)) :
  delete_first i ds = Some ds' -> filed_by_book ds -> filed_by_book ds'.
Proof.
  unfold filed_by_book. revert ds'.
  induction ds as [|[k l] r IH]; simpl; [discriminate|].
  intros ds' H Hf. inversion Hf as [|? ? Hl Hr]; subst.
  destruct (find_index _ l).
  - injection H as <-. constructor; auto. simpl in *.
    now apply remove_nth_Forall.
  - destruct (delete_first i r); simpl in H; [|discriminate].
    injection H as <-. constructor; auto.
Qed.

Lemma consistent_empty (data_file : string) : consistent (empty data_file).
Proof.
  repeat split; try constructor. intros k H. discriminate.
Qed.

Lemma consistent_add_book (b : Book.t) (self : BookManager.t) (w : World) :
  consistent self -> consistent (fst (fst (add_book b self w))).
Proof.
  intros (Hb & Hd & Hf & Hl). unfold add_book. cbn [fst].
  change (diaries (set_books (set (Book.id b) b (books self)) self))
    with (diaries self).
  destruct (mem (Book.id b) (diaries self)) eqn:E;
    (split; [now apply wf_set|]); cbn [diaries set_diaries set_books].
  - split; [exact Hd|]. split; [exact Hf|].
    intros k Hk. cbn [books diaries set_books set_diaries] in *.
    destruct (String.eqb k (Book.id b)) eqn:Ek.
    + apply String.eqb_eq in Ek. now subst.
    + apply String.eqb_neq in Ek. rewrite mem_set_neq in Hk by exact Ek.
      now apply Hl.
  - split; [now apply wf_set|]. split.
    + apply Forall_set; [exact Hf | constructor].
    + intros k Hk. cbn [books diaries set_books set_diaries] in *.
      destruct (String.eqb k (Book.id b)) eqn:Ek.
      * apply String.eqb_eq in Ek. subst. apply mem_set_eq.
      * apply String.eqb_neq in Ek. rewrite mem_set_neq in Hk by exact Ek.
        apply mem_set_mono. now apply Hl.
Qed.

Lemma consistent_add_diary (d : Diary.t) (self : BookManager.t) (w : World) :
  consistent self -> consistent (fst (fst (add_diary d self w))).
Proof.
  intros (Hb & Hd & Hf & Hl). unfold add_diary.
  destruct (mem (Diary.book_id d) (books self)) eqn:Em; cbn [fst];
    [|repeat split; assumption].
  assert (H1 : wf (diaries (if mem (Diary.book_id d) (diaries self)
                            then self
                            else set_diaries
                                   (set (Diary.book_id d) [] (diaries self))
                                   self))
               /\ filed_by_book
                    (diaries (if mem (Diary.book_id d) (diaries self)
                              then self
                              else set_diaries
                                     (set (Diary.book_id d) []
                                          (diaries self))
                                     self))).
  { destruct (mem (Diary.book_id d) (diaries self)); cbn [diaries set_diaries].
    - now split.
    - split; [now apply wf_set|].
      apply Forall_set; [exact Hf | constructor]. }
  destruct H1 as [Hd1 Hf1].
  assert (Hbooks : forall s : BookManager.t,
             books (if mem (Diary.book_id d) (diaries self)
                    then self
                    else set_diaries s.(diaries) self) = books self).
  { intros s. now destruct (mem (Diary.book_id d) (diaries self)). }
  repeat split; cbn [books diaries set_diaries].
  - now destruct (mem (Diary.book_id d) (diaries self)).
  - now apply wf_set.
  - apply Forall_set; [exact Hf1|]. cbn [fst snd].
    apply Forall_app. split; [|now repeat constructor].
    destruct (get (Diary.book_id d) (diaries _)) eqn:G; [|constructor].
    exact (filed_get _ _ _ Hf1 G).
  - intros k Hk. apply mem_set_mono.
    destruct (mem (Diary.book_id d) (diaries self)) eqn:E;
      cbn [books diaries set_diaries] in *.
    + now apply Hl.
    + apply mem_set_mono. now apply Hl.
Qed.

Lemma consistent_update_diary (d : Diary.t) (self : BookManager.t)
    (w : World) :
  consistent self -> consistent (fst (fst (update_diary d self w))).
Proof.
  intros (Hb & Hd & Hf & Hl). unfold update_diary.
  destruct (get (Diary.book_id d) (diaries self)) as [l|] eqn:G;
    [|repeat split; assumption].
  destruct (find_index _ l) as [i|]; [|repeat split; assumption].
  cbn [fst]. repeat split; cbn [books diaries set_diaries].
  - exact Hb.
  - now apply wf_set.
  - apply Forall_set; [exact Hf|]. cbn [fst snd].
    apply replace_nth_Forall; [reflexivity|].
    exact (filed_get _ _ _ Hf G).
  - intros k Hk. apply mem_set_mono. now apply Hl.
Qed.

Lemma consistent_delete_diary (i : string) (self : BookManager.t)
    (w : World) :
  consistent self -> consistent (fst (fst (delete_diary i self w))).
Proof.
  intros (Hb & Hd & Hf & Hl). unfold delete_diary.
  destruct (delete_first i (diaries self)) as [ds|] eqn:E;
    [|repeat split; assumption].
  pose proof (delete_first_keys _ _ _ E) as Hk.
  cbn [fst]. repeat split; cbn [books diaries set_diaries].
  - exact Hb.
  - unfold wf. now rewrite Hk.
  - exact (delete_first_filed _ _ _ E Hf).
  - intros k Hm. cbn [books diaries set_diaries] in *.
    apply mem_In_keys. rewrite Hk. apply mem_In_keys.
    now apply Hl.
Qed.

Lemma consistent_delete_book (i : string) (self : BookManager.t)
    (w : World) :
  consistent self -> consistent (fst (fst (delete_book i self w))).
Proof.
  intros (Hb & Hd & Hf & Hl). unfold delete_book.
  destruct (mem i (books self)) eqn:Em; cbn [fst];
    [|repeat split; assumption].
  change (diaries (set_books (del i (books self)) self)) with (diaries self).
  assert (Hkeep : forall k, mem k (del i (books self)) = true ->
                            k <> i /\ mem k (diaries self) = true).
  { intros k Hk. assert (Hne : k <> i).
    { intros ->. unfold mem in Hk. now rewrite get_del_eq in Hk. }
    split; [exact Hne|]. apply Hl.
    unfold mem in *. now rewrite get_del_neq in Hk. }
  destruct (mem i (diaries self)) eqn:E; unfold consistent, books_have_lists;
    cbn [books diaries set_diaries set_books].
  - split; [now apply wf_del|]. split; [now apply wf_del|].
    split; [now apply Forall_del|].
    intros k Hk. destruct (Hkeep k Hk) as [Hne Hm].
    unfold mem in *. now rewrite get_del_neq.
  - split; [now apply wf_del|]. split; [exact Hd|]. split; [exact Hf|].
    intros k Hk. now destruct (Hkeep k Hk).
Qed.

Lemma consistent_run (o : op) (self : BookManager.t) (w : World) :
  consistent self -> consistent (fst (run o self w)).
Proof.
  destruct o; unfold run.
  - apply consistent_add_book.
  - apply consistent_add_diary.
  - apply consistent_update_diary.
  - apply consistent_delete_diary.
  - apply consistent_delete_book.
Qed.

Lemma reachable_consistent (data_file : string) (self : BookManager.t) :
  reachable data_file self -> consistent self.
Proof.
  induction 1 as [|self o w Hr IH].
  - apply consistent_empty.
  - now apply consistent_run.
Qed.

(** C9: in every repository reached from the empty one by [add_book],
    [add_diary], [update_diary], [delete_diary] and [delete_book], each
    diary stored under key [k] has [book_id] [k], and each key of the
    books is a key of the diaries. *)
Theorem reachable_filed_by_book (data_file : string)
    (self : BookManager.t) :
  reachable data_file self ->
  (forall k l d, get k (diaries self) = Some l -> In d l ->
                 Diary.book_id d = k)
  /\ (forall k, mem k (books self) = true -> mem k (diaries self) = true).
Proof.
  intros Hr. destruct (reachable_consistent _ _ Hr) as (_ & _ & Hf & Hl).
  split; [|exact Hl].
  intros k l d Hg Hin.
  pose proof (filed_get _ _ _ Hf Hg) as H.
  rewrite Forall_forall in H. now apply H.
Qed.

Lemma reachable_filed_by_book_witness :
  reachable store_file one_book
  /\ (forall k l d, get k (diaries one_book) = Some l -> In d l ->
                    Diary.book_id d = k)
  /\ (forall k, mem k (books one_book) = true ->
                mem k (diaries one_book) = true).
Proof.
  assert (Hr : reachable store_file one_book).
  { change one_book
      with (fst (run (AddDiary note_may)
                     (fst (run (AddBook dune) (empty store_file) no_files))
                     no_files)).
    apply reach_step. apply reach_step. apply reach_empty. }
  split; [exact Hr|].
  exact (reachable_filed_by_book store_file one_book Hr).
Defined.

(* ===================================================================== *)
(** ** The scenarios of the specification, run on the model *)
(* ===================================================================== *)

(** Empty store, add "Dune", add a diary dated 2024-05-01, read it back,
    delete the book: the diaries and the book are gone. *)
Example dune_scenario :
  let '(s1, w1, id1) := add_book dune (empty store_file) no_files in
  let '(s2, w2, r2) := add_diary note_may s1 w1 in
  let '(s3, w3, r3) := delete_book id1 s2 w2 in
  id1 = "B1"
  /\ r2 = Ok "D1"
  /\ get_diaries_for_book "B1" s2 = [note_may]
  /\ r3 = true
  /\ get_diaries_for_book "B1" s3 = []
  /\ get_book "B1" s3 = None
  /\ files w3 store_file = Some (Document (document (empty store_file))).
Proof. repeat split. Qed.

(** The search ignores case and looks at the author. *)
Example search_books_tolkien :
  search_books "tolkien" two_books = [hobbit]
  /\ search_books "TOLKIEN" two_books = [hobbit]
  /\ search_books "orwell" two_books = [].
Proof. repeat split. Qed.

(** [update_diary] with an id that is not stored fails and leaves the
    repository as it was. *)
Example update_diary_unknown_id :
  update_diary note_morning one_book no_files = (one_book, no_files, false).
Proof. reflexivity. Qed.

(* ===================================================================== *)
(** ** Facts about the list loops *)
(* ===================================================================== *)

Section FindFacts.
Context {A : Type} (f : A -> bool).


Lemma find_index_none (l : list A) :
  find_index f l = None <-> Forall (fun y => f y = false) l.
Proof.
  induction l as [|y r IH]; simpl.
  - split; auto.
  - destruct (f y) eqn:E.
    + split; [discriminate|]. intros H. inversion H. congruence.
    + destruct (find_index f r); simpl.
      * split; [discriminate|]. intros H. inversion H as [|? ? _ Hr].
        apply IH in Hr. discriminate.
      * split; auto. intros _. constructor; auto. now apply IH.
Qed.

Lemma find_index_first (pre post : list A) (x : A) :
  Forall (fun y => f y = false) pre -> f x = true ->
  find_index f (pre ++ x :: post) = Some (List.length pre).
Proof.
  intros Hp Hx. induction Hp as [|y r Hy Hr IH]; simpl.
  - now rewrite Hx.
  - now rewrite Hy, IH.
Qed.

Lemma find_first (pre post : list A) (x : A) :
  Forall (fun y => f y = false) pre -> f x = true ->
  find f (pre ++ x :: post) = Some x.
Proof.
  intros Hp Hx. induction Hp as [|y r Hy Hr IH]; simpl.
  - now rewrite Hx.
  - now rewrite Hy.
Qed.


Lemma find_none_Forall (l : list A) :
  find f l = None <-> Forall (fun y => f y = false) l.
Proof.
  induction l as [|y r IH]; simpl.
  - split; auto.
  - destruct (f y) eqn:E.
    + split; [discriminate|]. intros H. inversion H. congruence.
    + rewrite IH. split; [now constructor|]. intros H. now inversion H.
Qed.

Lemma find_some_split (l : list A) (x : A) :
  find f l = Some x ->
  exists pre post,
    l = pre ++ x :: post /\ f x = true /\ Forall (fun y => f y = false) pre.
Proof.
  induction l as [|y r IH]; simpl; [discriminate|].
  destruct (f y) eqn:E.
  - intros [= <-]. exists [], r. repeat split; auto.
  - intros H. destruct (IH H) as (pre & post & -> & Hx & Hp).
    exists (y :: pre), post. repeat split; auto.
Qed.

End FindFacts.

Lemma replace_nth_split {A : Type} (pre post : list A) (x d : A) :
  replace_nth (List.length pre) d (pre ++ x :: post) = pre ++ d :: post.
Proof. induction pre as [|y r IH]; simpl; auto. now rewrite IH. Qed.

Lemma remove_nth_split {A : Type} (pre post : list A) (x : A) :
  remove_nth (List.length pre) (pre ++ x :: post) = pre ++ post.
Proof. induction pre as [|y r IH]; simpl; auto. now rewrite IH. Qed.

Lemma length_values_keys {V : Type} (d : dict V) :
  List.length (values d) = List.length (keys d).
Proof. unfold values, keys. now rewrite !length_map. Qed.

(** The closing step of the proofs about a method that saves. *)
Ltac saved w Hw :=
  match goal with
  | |- files (fst (save_data ?s w)) _ = _ => exact (save_data_writes s w Hw)
  end.

(* ===================================================================== *)
(** ** update_book and the size of the collection *)
(* ===================================================================== *)

(** X1: [update_book] on an id that is not stored returns [False] and
    touches neither the repository nor the files; on a stored id it
    replaces the record where it stands, leaves the other books, the
    order of the books and all the diaries alone, saves, and returns
    [True]. *)
Theorem update_book_spec (b : Book.t) (self : BookManager.t) (w : World) :
  (mem (Book.id b) (books self) = false ->
   update_book b self w = (self, w, false))
  /\
  (mem (Book.id b) (books self) = true ->
   exists self',
     update_book b self w = (self', fst (save_data self' w), true)
     /\ get_book (Book.id b) self' = Some b
     /\ (forall k, k <> Book.id b -> get_book k self' = get_book k self)
     /\ keys (books self') = keys (books self)
     /\ diaries self' = diaries self
     /\ (writable w (data_file self) = true ->
         files (fst (save_data self' w)) (data_file self)
         = Some (Document (document self')))).
Proof.
  split; intros Hm; unfold update_book; rewrite Hm; [reflexivity|].
  eexists. split; [reflexivity|]. unfold get_book. simpl.
  repeat split.
  - apply get_set_eq.
  - intros k Hk. now apply get_set_neq.
  - now apply keys_set_present.
  - intros Hw. saved w Hw.
Qed.

Lemma update_book_spec_witness :
  (mem (Book.id hobbit) (books one_book) = false /\
   update_book hobbit one_book no_files = (one_book, no_files, false))
  /\
  (mem (Book.id dune_revised) (books two_books) = true /\
   exists self',
     update_book dune_revised two_books no_files
     = (self', fst (save_data self' no_files), true)
     /\ get_all_books self' = [dune_revised; hobbit]).
Proof.
  split; (split; [reflexivity|]).
  - apply (proj1 (update_book_spec hobbit one_book no_files)). reflexivity.
  - destruct (proj2 (update_book_spec dune_revised two_books no_files)
                eq_refl) as (self' & Hrun & _).
    exists self'. split; [exact Hrun|].
    injection Hrun as <-. reflexivity.
Defined.

(** X2: [add_book] makes [get_all_books] one longer exactly when the id
    of the book was not in use; with an id in use the length stays. *)
Theorem add_book_length (b : Book.t) (self : BookManager.t) (w : World) :
  List.length (get_all_books (fst (fst (add_book b self w))))
  = if mem (Book.id b) (books self)
    then List.length (get_all_books self)
    else S (List.length (get_all_books self)).
Proof.
  unfold get_all_books. rewrite !length_values_keys.
  assert (H : books (fst (fst (add_book b self w)))
              = set (Book.id b) b (books self)).
  { unfold add_book. simpl.
    now destruct (mem (Book.id b) (diaries self)). }
  rewrite H. destruct (mem (Book.id b) (books self)) eqn:E.
  - now rewrite keys_set_present.
  - rewrite set_absent by exact E. unfold keys.
    rewrite map_app, length_app. simpl. lia.
Qed.

(* ===================================================================== *)
(** ** update_diary *)
(* ===================================================================== *)

Lemma eqb_false_Forall (i : string) (l : list Diary.t) :
  Forall (fun x => Diary.id x <> i) l ->
  Forall (fun x => String.eqb (Diary.id x) i = false) l.
Proof.
  intros H. eapply Forall_impl; [|exact H].
  intros x Hx. now apply String.eqb_neq.
Qed.

(** X3: [update_diary] returns [False] and changes nothing when the book
    of the diary has no list or the list holds no diary with the id;
    otherwise the first diary of the list with that id is replaced where
    it stands, nothing else moves, the repository is saved and the
    result is [True]. *)
Theorem update_diary_spec (d : Diary.t) (self : BookManager.t) (w : World) :
  ((forall l, get (Diary.book_id d) (diaries self) = Some l ->
              Forall (fun x => Diary.id x <> Diary.id d) l) ->
   update_diary d self w = (self, w, false))
  /\
  (forall pre old post,
     get (Diary.book_id d) (diaries self) = Some (pre ++ old :: post) ->
     Diary.id old = Diary.id d ->
     Forall (fun x => Diary.id x <> Diary.id d) pre ->
     exists self',
       update_diary d self w = (self', fst (save_data self' w), true)
       /\ books self' = books self
       /\ get (Diary.book_id d) (diaries self') = Some (pre ++ d :: post)
       /\ (forall k, k <> Diary.book_id d ->
                     get k (diaries self') = get k (diaries self))
       /\ keys (diaries self') = keys (diaries self)
       /\ (writable w (data_file self) = true ->
           files (fst (save_data self' w)) (data_file self)
           = Some (Document (document self')))).
Proof.
  unfold update_diary. split.
  - intros H. destruct (get (Diary.book_id d) (diaries self)) as [l|];
      [|reflexivity].
    specialize (H l eq_refl). apply eqb_false_Forall in H.
    apply find_index_none in H. now rewrite H.
  - intros pre old post Hg Hold Hpre. rewrite Hg.
    rewrite find_index_first;
      [| now apply eqb_false_Forall | now apply String.eqb_eq].
    rewrite replace_nth_split.
    eexists. split; [reflexivity|]. simpl. repeat split.
    + apply get_set_eq.
    + intros k Hk. now apply get_set_neq.
    + apply keys_set_present. unfold mem. now rewrite Hg.
    + intros Hw. saved w Hw.
Qed.

Lemma update_diary_spec_witness :
  update_diary note_morning two_notes no_files = (two_notes, no_files, false)
  /\ exists self',
       update_diary note_may_revised two_notes no_files
       = (self', fst (save_data self' no_files), true)
       /\ get "B1" (diaries self') = Some [note_may_revised; note_june].
Proof.
  split.
  - apply (proj1 (update_diary_spec note_morning two_notes no_files)).
    intros l [= <-]. repeat constructor; simpl; discriminate.
  - destruct (proj2 (update_diary_spec note_may_revised two_notes no_files)
                [] note_may [note_june] eq_refl eq_refl (Forall_nil _))
      as (self' & Hrun & _ & Hget & _).
    exists self'. split; [exact Hrun | exact Hget].
Defined.

(* ===================================================================== *)
(** ** get_diary and delete_diary *)
(* ===================================================================== *)

(** X4: [get_diary] returns the first stored diary with the id, in the
    order of a scan of the repository, and [None] exactly when no stored
    diary has the id. *)
Theorem get_diary_spec (diary_id : string) (self : BookManager.t) :
  (get_diary diary_id self = None <->
   Forall (fun x => Diary.id x <> diary_id) (all_diaries self))
  /\
  (forall d, get_diary diary_id self = Some d ->
     Diary.id d = diary_id
     /\ exists pre post,
          all_diaries self = pre ++ d :: post
          /\ Forall (fun x => Diary.id x <> diary_id) pre).
Proof.
  unfold get_diary, all_diaries. split.
  - rewrite find_none_Forall. split; intros H;
      (eapply Forall_impl; [|exact H]); intros x Hx;
      now apply String.eqb_neq.
  - intros d H. apply find_some_split in H.
    destruct H as (pre & post & Heq & Hd & Hpre).
    split; [now apply String.eqb_eq|].
    exists pre, post. split; [exact Heq|].
    eapply Forall_impl; [|exact Hpre]. intros x Hx. now apply String.eqb_neq.
Qed.

Lemma get_diary_spec_witness :
  get_diary "D4" two_notes = Some note_june
  /\ Diary.id note_june = "D4"
  /\ exists pre post,
       all_diaries two_notes = pre ++ note_june :: post
       /\ Forall (fun x => Diary.id x <> "D4") pre.
Proof.
  split; [reflexivity|].
  exact (proj2 (get_diary_spec "D4" two_notes) note_june eq_refl).
Defined.




(* ===================================================================== *)
(** ** add_diary followed by a lookup or a removal *)
(* ===================================================================== *)

Lemma find_insert_false {A : Type} (f : A -> bool) (a b : list A) (d : A) :
  f d = false -> find f (a ++ d :: b) = find f (a ++ b).
Proof.
  intros Hd. induction a as [|y r IH]; simpl.
  - now rewrite Hd.
  - now rewrite IH.
Qed.

Lemma concat_values_set_empty (k : string) (ds : dict (list Diary.t)) :
  mem k ds = false ->
  List.concat (values (set k [] ds)) = List.concat (values ds).
Proof.
  intros H. rewrite set_absent by exact H. unfold values.
  rewrite map_app, concat_app. simpl. now rewrite app_nil_r.
Qed.

Lemma concat_set_append (k : string) (l : list Diary.t) (d : Diary.t)
    (ds : dict (list Diary.t)) :
  get k ds = Some l ->
  exists a b,
    List.concat (values ds) = a ++ b
    /\ List.concat (values (set k (l ++ [d]) ds)) = a ++ d :: b.
Proof.
  induction ds as [|[k' v] r IH]; simpl; [discriminate|].
  destruct (String.eqb k k') eqn:E.
  - intros [= ->]. exists l, (List.concat (values r)). simpl.
    split; [reflexivity|]. now rewrite <- app_assoc.
  - intros H. destruct (IH H) as (a & b & H1 & H2).
    exists (v ++ a), b. simpl. rewrite H1, H2, <- !app_assoc. now split.
Qed.

(** What [add_diary] stores when the book is known: the diary at the end
    of a list that was there or has just been created. *)
Lemma add_diary_diaries (d : Diary.t) (self : BookManager.t) (w : World) :
  mem (Diary.book_id d) (books self) = true ->
  exists ds1 l,
    get (Diary.book_id d) ds1 = Some l
    /\ List.concat (values ds1) = all_diaries self
    /\ (mem (Diary.book_id d) (diaries self) = true -> ds1 = diaries self)
    /\ fst (fst (add_diary d self w))
       = set_diaries (set (Diary.book_id d) (l ++ [d]) ds1) self.
Proof.
  intros Hm. unfold add_diary, all_diaries. rewrite Hm.
  unfold mem. destruct (get (Diary.book_id d) (diaries self)) as [l|] eqn:G.
  - exists (diaries self), l. simpl. rewrite G. repeat split; auto.
  - exists (set (Diary.book_id d) [] (diaries self)), []. simpl.
    rewrite get_set_eq. repeat split; auto.
    + apply concat_values_set_empty. unfold mem. now rewrite G.
    + discriminate.
Qed.

(** X6: after [add_diary] of a diary whose book is known and whose id no
    stored diary has, [get_diary] finds that diary under its id, and
    finds under every other id what it found before. *)
Theorem add_diary_then_get_diary (d : Diary.t) (self : BookManager.t)
    (w : World) :
  mem (Diary.book_id d) (books self) = true ->
  get_diary (Diary.id d) self = None ->
  get_diary (Diary.id d) (fst (fst (add_diary d self w))) = Some d
  /\ forall i, i <> Diary.id d ->
       get_diary i (fst (fst (add_diary d self w))) = get_diary i self.
Proof.
  intros Hm Hfresh.
  destruct (add_diary_diaries d self w Hm) as (ds1 & l & Hg & Hc & _ & Hs).
  destruct (concat_set_append _ _ d _ Hg) as (a & b & H1 & H2).
  rewrite Hs. unfold get_diary in *. simpl. rewrite H2.
  unfold all_diaries in Hc. rewrite <- Hc, H1 in Hfresh.
  split.
  - apply find_none_Forall in Hfresh. apply Forall_app in Hfresh.
    apply find_first; [tauto | apply String.eqb_refl].
  - intros i Hi. rewrite find_insert_false.
    + now rewrite <- Hc, H1.
    + apply String.eqb_neq. congruence.
Qed.

Lemma add_diary_then_get_diary_witness :
  (mem (Diary.book_id note_june) (books one_book) = true
   /\ get_diary (Diary.id note_june) one_book = None)
  /\ get_diary "D4" (fst (fst (add_diary note_june one_book no_files)))
     = Some note_june.
Proof.
  split; [split; reflexivity|].
  exact (proj1 (add_diary_then_get_diary note_june one_book no_files
                  eq_refl eq_refl)).
Defined.

Lemma delete_first_set_append (i k : string) (l : list Diary.t)
    (d : Diary.t) (ds : dict (list Diary.t)) :
  get k ds = Some l ->
  Forall (fun x => String.eqb (Diary.id x) i = false)
         (List.concat (values ds)) ->
  String.eqb (Diary.id d) i = true ->
  delete_first i (set k (l ++ [d]) ds) = Some ds.
Proof.
  intros Hg Hall Hd. revert Hg Hall.
  induction ds as [|[k' v] r IH]; simpl; [discriminate|].
  intros Hg Hall. apply Forall_app in Hall. destruct Hall as [Hv Hr].
  destruct (String.eqb k k') eqn:E.
  - injection Hg as ->. simpl.
    rewrite (find_index_first _ l [] d Hv Hd), remove_nth_split.
    now rewrite app_nil_r.
  - simpl. apply find_index_none in Hv. rewrite Hv.
    now rewrite IH.
Qed.

(** X7: removing a diary right after adding it gives back the repository
    as it was in memory, provided the book already had a diary list and
    no stored diary had the id. *)
Theorem add_diary_then_delete_diary (d : Diary.t) (self : BookManager.t)
    (w w' : World) :
  mem (Diary.book_id d) (books self) = true ->
  mem (Diary.book_id d) (diaries self) = true ->
  get_diary (Diary.id d) self = None ->
  delete_diary (Diary.id d) (fst (fst (add_diary d self w))) w'
  = (self, fst (save_data self w'), true).
Proof.
  intros Hm Hl Hfresh.
  destruct (add_diary_diaries d self w Hm) as (ds1 & l & Hg & Hc & He & Hs).
  specialize (He Hl). subst ds1. rewrite Hs. unfold delete_diary. simpl.
  unfold get_diary in Hfresh. apply find_none_Forall in Hfresh.
  rewrite (delete_first_set_append _ _ _ _ _ Hg Hfresh
             (String.eqb_refl _)).
  now destruct self.
Qed.

Lemma add_diary_then_delete_diary_witness :
  (mem (Diary.book_id note_june) (books one_book) = true
   /\ mem (Diary.book_id note_june) (diaries one_book) = true
   /\ get_diary (Diary.id note_june) one_book = None)
  /\ delete_diary "D4"
       (fst (fst (add_diary note_june one_book no_files))) no_files
     = (one_book, fst (save_data one_book no_files), true).
Proof.
  split; [repeat split|].
  exact (add_diary_then_delete_diary note_june one_book no_files no_files
           eq_refl eq_refl eq_refl).
Defined.

(* ===================================================================== *)
(** ** search_books and search_diaries *)
(* ===================================================================== *)

Lemma lower_ascii_idem (c : ascii) :
  PyStr.lower_ascii (PyStr.lower_ascii c) = PyStr.lower_ascii c.
Proof. destruct c as [[] [] [] [] [] [] [] []]; reflexivity. Qed.

Lemma lower_idem (s : string) : PyStr.lower (PyStr.lower s) = PyStr.lower s.
Proof.
  induction s as [|c r IH]; simpl; auto.
  now rewrite lower_ascii_idem, IH.
Qed.

Lemma prefix_lower (q s : string) :
  String.prefix q s = true ->
  String.prefix (PyStr.lower q) (PyStr.lower s) = true.
Proof.
  revert s. induction q as [|c q IH]; intros [|c' s]; simpl; auto;
    try discriminate.
  destruct (ascii_dec c c') as [->|Hne]; [|discriminate].
  intros H. destruct (ascii_dec _ _) as [_|Hne]; [auto | now elim Hne].
Qed.

(** Lowering both sides keeps an occurrence. *)
Lemma contains_lower (q s : string) :
  PyStr.contains q s = true ->
  PyStr.contains (PyStr.lower q) (PyStr.lower s) = true.
Proof.
  induction s as [|c r IH]; cbn [PyStr.contains PyStr.lower].
  - destruct (String.prefix q "") eqn:E; intros H; [|discriminate].
    apply prefix_lower in E. cbn [PyStr.lower] in E. now rewrite E.
  - destruct (String.prefix q (String c r)) eqn:E; intros H.
    + apply prefix_lower in E. cbn [PyStr.lower] in E. now rewrite E.
    + rewrite (IH H). destruct (String.prefix (PyStr.lower q) _); reflexivity.
Qed.

Lemma lower_append (a b : string) :
  PyStr.lower (String.append a b)
  = String.append (PyStr.lower a) (PyStr.lower b).
Proof. induction a as [|c a IH]; simpl; auto. now rewrite IH. Qed.

Lemma prefix_iff (q s : string) :
  String.prefix q s = true <-> exists post, s = String.append q post.
Proof.
  revert s. induction q as [|c q IH]; intros [|c' s]; simpl.
  - split; auto. intros _. now exists "".
  - split; auto. intros _. now exists (String c' s).
  - split; [discriminate | intros [post H]; discriminate].
  - destruct (ascii_dec c c') as [->|Hne].
    + rewrite IH. split; intros [post H]; exists post; congruence.
    + split; [discriminate|]. intros [post H]. congruence.
Qed.

Lemma contains_unfold (q s : string) :
  PyStr.contains q s
  = if String.prefix q s then true
    else match s with
         | EmptyString => false
         | String _ r => PyStr.contains q r
         end.
Proof. destruct s; reflexivity. Qed.

(** [in] on strings is occurrence as a contiguous piece. *)
Lemma contains_iff (q s : string) :
  PyStr.contains q s = true <-> occurs_in q s.
Proof.
  unfold occurs_in. split.
  - induction s as [|c r IH]; rewrite contains_unfold;
      destruct (String.prefix q _) eqn:E.
    + apply prefix_iff in E. destruct E as [post E].
      intros _. now exists "", post.
    + discriminate.
    + apply prefix_iff in E. destruct E as [post E].
      intros _. now exists "", post.
    + intros H. destruct (IH H) as (pre & post & ->).
      now exists (String c pre), post.
  - intros (pre & post & ->). induction pre as [|c pre IH].
    + rewrite contains_unfold. simpl String.append.
      replace (String.prefix q (String.append q post)) with true; auto.
      symmetry. apply prefix_iff. now exists post.
    + rewrite contains_unfold. simpl String.append.
      destruct (String.prefix q _); auto.
Qed.

Lemma occurs_in_lower (q s : string) :
  occurs_in q s -> occurs_in (PyStr.lower q) (PyStr.lower s).
Proof.
  intros (pre & post & ->). exists (PyStr.lower pre), (PyStr.lower post).
  now rewrite !lower_append.
Qed.

(** X8: for an ASCII query and stored books with ASCII fields,
    [search_books] returns, in the order of [get_all_books], exactly the
    stored books in one of whose title, author, genre and memo the query
    occurs, case ignored; in particular a book in which the query occurs
    as it is written is returned, and the case of the letters of the
    query does not matter. *)
Theorem search_books_spec (query : string) (self : BookManager.t) :
  PyStr.is_ascii query = true ->
  Forall (fun b => ascii_book b = true) (get_all_books self) ->
  (exists keep,
     search_books query self = filter keep (get_all_books self)
     /\ forall b, keep b = true <-> book_matches query b)
  /\ (forall b, In b (get_all_books self) ->
        occurs_in query (Book.title b) \/ occurs_in query (Book.author b)
        \/ occurs_in query (Book.genre b) \/ occurs_in query (Book.memo b) ->
        In b (search_books query self))
  /\ search_books (PyStr.lower query) self = search_books query self.
Proof.
  intros _ _. unfold search_books, get_all_books. split; [|split].
  - eexists. split; [reflexivity|]. intros b. cbv beta.
    unfold book_matches. rewrite !orb_true_iff, !contains_iff. tauto.
  - intros b Hin H. apply filter_In. split; [exact Hin|].
    rewrite !orb_true_iff, !contains_iff.
    destruct H as [H|[H|[H|H]]]; apply occurs_in_lower in H; tauto.
  - now rewrite lower_idem.
Qed.

Lemma search_books_spec_witness :
  (PyStr.is_ascii "Tolkien" = true
   /\ Forall (fun b => ascii_book b = true) (get_all_books two_books)
   /\ In hobbit (get_all_books two_books)
   /\ occurs_in "Tolkien" (Book.author hobbit))
  /\ In hobbit (search_books "Tolkien" two_books).
Proof.
  assert (Ha : Forall (fun b => ascii_book b = true)
                 (get_all_books two_books)).
  { simpl. repeat constructor. }
  assert (Hin : In hobbit (get_all_books two_books)) by (simpl; auto).
  assert (Ho : occurs_in "Tolkien" (Book.author hobbit)).
  { exists "J.R.R. ", "". reflexivity. }
  split; [repeat split; assumption|].
  apply (proj1 (proj2 (search_books_spec "Tolkien" two_books eq_refl Ha))
           hobbit Hin).
  right. left. exact Ho.
Defined.

(** X9: for an ASCII query and ASCII contents, [search_diaries] is empty
    for a book id without a diary list; otherwise it returns, in stored
    order, exactly the diaries of the list in whose content the query
    occurs, case ignored; with the empty query that is the whole list as
    stored; a diary in whose content the query occurs as written is
    returned, and the case of the query's letters does not matter. *)
Theorem search_diaries_spec (book_id query : string)
    (self : BookManager.t) :
  PyStr.is_ascii query = true ->
  (forall l, get book_id (diaries self) = Some l ->
             Forall (fun d => PyStr.is_ascii (Diary.content d) = true) l) ->
  (get book_id (diaries self) = None ->
   search_diaries book_id query self = [])
  /\ (forall l, get book_id (diaries self) = Some l ->
        search_diaries book_id "" self = l
        /\ (exists keep,
              search_diaries book_id query self = filter keep l
              /\ forall d, keep d = true <->
                   occurs_in (PyStr.lower query)
                             (PyStr.lower (Diary.content d)))
        /\ forall d, In d l -> occurs_in query (Diary.content d) ->
             In d (search_diaries book_id query self))
  /\ search_diaries book_id (PyStr.lower query) self
     = search_diaries book_id query self.
Proof.
  intros _ _. unfold search_diaries. split; [|split].
  - now intros ->.
  - intros l H. rewrite H. split; [|split].
    + simpl PyStr.lower. apply filter_all. intros d. apply contains_empty.
    + eexists. split; [reflexivity|]. intros d. cbv beta.
      apply contains_iff.
    + intros d Hin Hc. apply filter_In. split; [exact Hin|].
      apply contains_iff. now apply occurs_in_lower.
  - destruct (get book_id (diaries self)); auto. now rewrite lower_idem.
Qed.

Lemma search_diaries_spec_witness :
  (PyStr.is_ascii "Half" = true
   /\ get "B1" (diaries two_notes) = Some [note_may; note_june]
   /\ Forall (fun d => PyStr.is_ascii (Diary.content d) = true)
             [note_may; note_june])
  /\ search_diaries "B1" "" two_notes = [note_may; note_june]
  /\ In note_june (search_diaries "B1" "Half" two_notes).
Proof.
  assert (Ha : forall l, get "B1" (diaries two_notes) = Some l ->
                 Forall (fun d => PyStr.is_ascii (Diary.content d) = true) l).
  { intros l [= <-]. repeat constructor. }
  split; [repeat split; auto|].
  destruct (proj1 (proj2 (search_diaries_spec "B1" "Half" two_notes
                            eq_refl Ha))
              [note_may; note_june] eq_refl) as (Hall & _ & Hfind).
  split; [exact Hall|]. apply Hfind; [simpl; auto|].
  exists "", "way through". reflexivity.
Defined.

(* ===================================================================== *)
(** ** What from_dict accepts and what it returns *)
(* ===================================================================== *)

Lemma subscript_dict (d : list (string * json)) (k : string) :
  subscript (JDict d) k
  = match get k d with Some v => Ok v | None => Raise KeyError end.
Proof. reflexivity. Qed.

(** X10: on a dict, [Book.from_dict] raises [KeyError] exactly when one
    of "title", "author", "published_year", "id" is missing, and raises
    nothing else; "genre" and "memo" may be missing. *)
Theorem Book_from_dict_required_keys (env : Env)
    (d : list (string * json)) :
  (mem "title" d && mem "author" d && mem "published_year" d && mem "id" d
   = false ->
   Book.from_dict env (JDict d) = Raise KeyError)
  /\
  (mem "title" d && mem "author" d && mem "published_year" d && mem "id" d
   = true ->
   exists o, Book.from_dict env (JDict d) = Ok o).
Proof.
  unfold Book.from_dict, mem. rewrite !subscript_dict.
  unfold get_default.
  destruct (get "title" d); simpl; [|split; [reflexivity | discriminate]].
  destruct (get "author" d); simpl; [|split; [reflexivity | discriminate]].
  destruct (get "published_year" d); simpl;
    [|split; [reflexivity | discriminate]].
  destruct (get "genre" d), (get "memo" d), (get "id" d); simpl;
    split; try discriminate; try reflexivity; intros _; eexists; reflexivity.
Qed.

Lemma Book_from_dict_required_keys_witness :
  (mem "title" short_record && mem "author" short_record
   && mem "published_year" short_record && mem "id" short_record = true)
  /\ exists o, Book.from_dict sample_env (JDict short_record) = Ok o.
Proof.
  split; [reflexivity|].
  exact (proj2 (Book_from_dict_required_keys sample_env short_record)
           eq_refl).
Defined.

Lemma as_opt_str_cases (j : json) (o : option string) :
  as_opt_str j = Some o ->
  (exists s, j = JStr s /\ s <> "" /\ o = Some s)
  \/ (truthy j = false /\ o = None).
Proof.
  unfold as_opt_str. destruct (truthy j) eqn:T.
  - destruct j; simpl; try discriminate. intros [= <-]. left.
    exists s. repeat split. simpl in T. intros ->. discriminate.
  - intros [= <-]. now right.
Qed.

(** X11: a Book returned by [Book.from_dict] carries the title, the
    author and the year of the record; its genre and memo are those of
    the record, or empty when the record has none; its id is the
    record's id, or a fresh one when the record's id is empty or
    otherwise falsy. *)
Theorem Book_from_dict_sound (env : Env) (d : list (string * json))
    (b : Book.t) :
  Book.from_dict env (JDict d) = Ok (Some b) ->
  get "title" d = Some (JStr (Book.title b))
  /\ get "author" d = Some (JStr (Book.author b))
  /\ get "published_year" d = Some (JInt (Book.published_year b))
  /\ (get "genre" d = Some (JStr (Book.genre b))
      \/ get "genre" d = None /\ Book.genre b = "")
  /\ (get "memo" d = Some (JStr (Book.memo b))
      \/ get "memo" d = None /\ Book.memo b = "")
  /\ (get "id" d = Some (JStr (Book.id b)) /\ Book.id b <> ""
      \/ (exists j, get "id" d = Some j /\ truthy j = false)
         /\ Book.id b = uuid4 env).
Proof.
  unfold Book.from_dict. rewrite !subscript_dict. unfold get_default.
  destruct (get "title" d) as [jt|]; simpl; [|discriminate].
  destruct (get "author" d) as [ja|]; simpl; [|discriminate].
  destruct (get "published_year" d) as [jy|]; simpl; [|discriminate].
  assert (Hfin : forall jg jm ji,
             Ok (match as_str jt, as_str ja, as_int jy,
                       as_str jg, as_str jm, as_opt_str ji with
                 | Some t', Some a, Some y, Some g, Some m, Some i =>
                     Some (Book.init env t' a y g m i)
                 | _, _, _, _, _, _ => None
                 end) = Ok (Some b) ->
             jt = JStr (Book.title b) /\ ja = JStr (Book.author b)
             /\ jy = JInt (Book.published_year b)
             /\ jg = JStr (Book.genre b) /\ jm = JStr (Book.memo b)
             /\ (ji = JStr (Book.id b) /\ Book.id b <> ""
                 \/ truthy ji = false /\ Book.id b = uuid4 env)).
  { intros jg jm ji.
    destruct jt; simpl; try discriminate.
    destruct ja; simpl; try discriminate.
    destruct jy; simpl; try discriminate.
    destruct jg; simpl; try discriminate.
    destruct jm; simpl; try discriminate.
    destruct (as_opt_str ji) as [o|] eqn:Ei; [|discriminate].
    intros [= <-]. simpl. repeat split.
    destruct (as_opt_str_cases _ _ Ei) as [(i & -> & Hi & ->)|[Hf ->]].
    - left. apply String.eqb_neq in Hi. rewrite Hi.
      split; [reflexivity | now apply String.eqb_neq].
    - now right. }
  destruct (get "id" d) as [ji|]; simpl;
    [|destruct (get "genre" d), (get "memo" d); discriminate].
  destruct (get "genre" d) as [jg|], (get "memo" d) as [jm|]; simpl;
    intros H.
  - destruct (Hfin jg jm ji H) as (-> & -> & -> & -> & -> & [[-> Hi]|[Hf Hi]]);
      repeat split; auto; right; split; eauto.
  - destruct (Hfin jg (JStr "") ji H)
      as (-> & -> & -> & -> & Hm & [[-> Hi]|[Hf Hi]]);
      injection Hm as Hm; repeat split; auto; right; split; eauto.
  - destruct (Hfin (JStr "") jm ji H)
      as (-> & -> & -> & Hg & -> & [[-> Hi]|[Hf Hi]]);
      injection Hg as Hg; repeat split; auto; right; split; eauto.
  - destruct (Hfin (JStr "") (JStr "") ji H)
      as (-> & -> & -> & Hg & Hm & [[-> Hi]|[Hf Hi]]);
      injection Hg as Hg; injection Hm as Hm;
      repeat split; auto; right; split; eauto.
Qed.

Lemma Book_from_dict_sound_witness :
  Book.from_dict sample_env (JDict short_record)
  = Ok (Some (Book.mk "B3" "Emma" "Austen" 1815 "" ""))
  /\ (get "genre" short_record = Some (JStr "")
      \/ get "genre" short_record = None /\ "" = "").
Proof.
  split; [reflexivity|].
  exact (proj1 (proj2 (proj2 (proj2
           (Book_from_dict_sound sample_env short_record
              (Book.mk "B3" "Emma" "Austen" 1815 "" "") eq_refl))))).
Defined.

Lemma strptime_valid_midnight (s : string) (dt : datetime) :
  strptime s = Ok dt -> Datetime.valid dt = true /\ is_midnight dt = true.
Proof.
  intros H. unfold strptime in H.
  destruct (rx_ymd _) as [[[[y m] d] [|c r]]|]; try discriminate.
  destruct (valid_date y m d) eqn:E; [|discriminate].
  injection H as <-. split; [|reflexivity].
  unfold Datetime.valid. simpl. now rewrite E.
Qed.

(** X12: for a record whose "date" is an ASCII text, [Diary.from_dict]
    raises what [strptime] raises on that text; and a Diary it returns
    has the date [strptime] reads from the text (a valid date without
    time of day), the book id and the content of the record and, the
    generated ids being non-empty, a non-empty id. *)
Theorem Diary_from_dict_sound (env : Env) (d : list (string * json))
    (s : string) :
  uuid4 env <> "" ->
  get "date" d = Some (JStr s) -> PyStr.is_ascii s = true ->
  (forall e, strptime s = Raise e ->
             Diary.from_dict env (JDict d) = Raise e)
  /\ (forall x, Diary.from_dict env (JDict d) = Ok (Some x) ->
        day_dated x
        /\ strptime s = Ok (Diary.date x)
        /\ get "book_id" d = Some (JStr (Diary.book_id x))
        /\ get "content" d = Some (JStr (Diary.content x))).
Proof.
  intros Hu Gd _. unfold Diary.from_dict. rewrite !subscript_dict, Gd.
  cbn [bind]. split.
  - intros e He. now rewrite He.
  - intros x H.
    destruct (strptime s) as [dt|] eqn:Es; [|discriminate H].
    cbn [bind] in H.
    destruct (get "book_id" d) as [jb|] eqn:Gb; [|discriminate H].
    cbn [bind] in H.
    destruct (get "content" d) as [jc|] eqn:Gc; [|discriminate H].
    cbn [bind] in H.
    destruct (get "id" d) as [ji|]; [|discriminate H]. cbn [bind] in H.
    destruct jb; try discriminate H.
    destruct jc; try discriminate H. cbn [as_str] in H.
    destruct (as_opt_str ji) as [o|]; [|discriminate H].
    injection H as <-.
    destruct (strptime_valid_midnight _ _ Es) as (Hv & Hm).
    split; [|simpl; repeat split; auto].
    split; [|exact Hm]. now apply Diary_init_valid.
Qed.

Lemma Diary_from_dict_sound_witness :
  (uuid4 sample_env <> ""
   /\ get "date" [("id", JStr "D2"); ("book_id", JStr "B1");
                  ("date", JStr "2024-05-02"); ("content", JStr "Pages")]
      = Some (JStr "2024-05-02")
   /\ PyStr.is_ascii "2024-05-02" = true)
  /\ day_dated (Diary.mk "D2" "B1" (mk_datetime 2024 5 2 0 0 0 0) "Pages").
Proof.
  assert (Hu : uuid4 sample_env <> "") by (simpl; discriminate).
  split; [repeat split; exact Hu|].
  exact (proj1 (proj2 (Diary_from_dict_sound sample_env
                         [("id", JStr "D2"); ("book_id", JStr "B1");
                          ("date", JStr "2024-05-02");
                          ("content", JStr "Pages")]
                         "2024-05-02" Hu eq_refl eq_refl)
                  (Diary.mk "D2" "B1" (mk_datetime 2024 5 2 0 0 0 0) "Pages")
                  eq_refl)).
Defined.

(* ===================================================================== *)
(** ** What load_data leaves in memory *)
(* ===================================================================== *)

Lemma all_typed_Forall {A : Type} (P : A -> Prop) (l : list (option A))
    (l' : list A) :
  all_typed l = Some l' ->
  Forall (fun o => forall x, o = Some x -> P x) l -> Forall P l'.
Proof.
  revert l'. induction l as [|[x|] r IH]; simpl; intros l' H Hall;
    try discriminate.
  - injection H as <-. constructor.
  - inversion Hall; subst.
    destruct (all_typed r) as [r'|]; [|discriminate].
    injection H as <-. constructor; auto.
Qed.

Section DecodeFacts.
Context {A : Type}.

Lemma fold_set_wf (items acc : dict A) :
  wf acc -> wf (fold_left (fun a kv => set (fst kv) (snd kv) a) items acc).
Proof.
  revert acc. induction items as [|kv r IH]; simpl; auto.
  intros acc H. apply IH. now apply wf_set.
Qed.

Lemma of_items_is_wf (items : dict A) : wf (of_items items).
Proof. apply fold_set_wf. constructor. Qed.

Lemma fold_set_Forall (P : string * A -> Prop) (items acc : dict A) :
  Forall P acc -> Forall P items ->
  Forall P (fold_left (fun a kv => set (fst kv) (snd kv) a) items acc).
Proof.
  revert acc. induction items as [|[k v] r IH]; simpl; auto.
  intros acc Ha Hi. inversion Hi; subst.
  apply IH; auto. now apply Forall_set.
Qed.

Lemma of_items_Forall (P : string * A -> Prop) (items : dict A) :
  Forall P items -> Forall P (of_items items).
Proof. intros H. apply fold_set_Forall; auto. Qed.

Lemma all_typed_items_Forall (P : string * A -> Prop)
    (l : list (string * option A)) (l' : dict A) :
  all_typed_items l = Some l' ->
  Forall (fun kv => forall x, snd kv = Some x -> P (fst kv, x)) l ->
  Forall P l'.
Proof.
  unfold all_typed_items. intros H Hall.
  apply (all_typed_Forall P _ _ H).
  apply Forall_map. eapply Forall_impl; [|exact Hall].
  intros [k [v|]] Hk x; simpl; [|discriminate].
  intros [= <-]. now apply Hk.
Qed.

End DecodeFacts.

Lemma traverse_Forall {A B : Type} (f : nat -> A -> result B)
    (P : B -> Prop) :
  (forall i x y, f i x = Ok y -> P y) ->
  forall l n ys, traverse f n l = Ok ys -> Forall P ys.
Proof.
  intros Hf. induction l as [|x r IH]; simpl; intros n ys.
  - intros [= <-]. constructor.
  - destruct (f n x) as [y|] eqn:E; simpl; [|discriminate].
    destruct (traverse f (S n) r) as [ys'|] eqn:E'; simpl; [|discriminate].
    intros [= <-]. constructor; eauto.
Qed.

Lemma Book_from_dict_valid (env : Env) (data : json) (b : Book.t) :
  uuid4 env <> "" -> Book.from_dict env data = Ok (Some b) -> Book.valid b.
Proof.
  intros Hu H. unfold Book.from_dict in H.
  destruct data as [| | | |l|d]; try discriminate H.
  rewrite !subscript_dict in H. unfold get_default in H.
  destruct (get "title" d) as [jt|]; [|discriminate H]. cbn [bind] in H.
  destruct (get "author" d) as [ja|]; [|discriminate H]. cbn [bind] in H.
  destruct (get "published_year" d) as [jy|]; [|discriminate H].
  cbn [bind] in H.
  destruct (get "id" d) as [ji|];
    [|destruct (get "genre" d), (get "memo" d); discriminate H].
  destruct (get "genre" d) as [jg|], (get "memo" d) as [jm|];
    cbn [bind] in H;
    destruct (as_str jt), (as_str ja), (as_int jy); try discriminate H;
    match type of H with
    | context [as_str jg] => destruct (as_str jg); try discriminate H
    | _ => idtac
    end;
    match type of H with
    | context [as_str jm] => destruct (as_str jm); try discriminate H
    | _ => idtac
    end;
    cbn [as_str] in H;
    destruct (as_opt_str ji); try discriminate H;
    injection H as <-; now apply Book_init_valid.
Qed.

Lemma Diary_from_dict_day_dated (env : Env) (data : json) (x : Diary.t) :
  uuid4 env <> "" -> Diary.from_dict env data = Ok (Some x) -> day_dated x.
Proof.
  intros Hu H. unfold Diary.from_dict in H.
  destruct (subscript data "date") as [[| | |s| |]|]; try discriminate H.
  cbn [bind] in H.
  destruct (strptime s) as [dt|] eqn:Es; [|discriminate H]. cbn [bind] in H.
  destruct (subscript data "book_id") as [jb|]; [|discriminate H].
  cbn [bind] in H.
  destruct (subscript data "content") as [jc|]; [|discriminate H].
  cbn [bind] in H.
  destruct (subscript data "id") as [ji|]; [|discriminate H].
  cbn [bind] in H.
  destruct (as_str jb), (as_str jc), (as_opt_str ji); try discriminate H.
  injection H as <-.
  destruct (strptime_valid_midnight _ _ Es) as (Hv & Hm).
  split; [|exact Hm]. now apply Diary_init_valid.
Qed.

Lemma decode_books_valid (env : nat -> Env) (data : json)
    (bs : dict Book.t) :
  (forall i, uuid4 (env i) <> "") ->
  decode_books env data = Ok (Some bs) ->
  wf bs /\ Forall Book.valid (values bs).
Proof.
  intros Hu. unfold decode_books.
  destruct (get_default data "books" (JDict [])) as [section|];
    [|discriminate]. simpl.
  destruct (items section) as [entries|]; [|discriminate]. simpl.
  destruct (traverse _ O entries) as [objs|] eqn:Et; [|discriminate]. simpl.
  destruct (all_typed_items objs) as [l|] eqn:Ea; [|discriminate]. simpl.
  intros [= <-]. split; [apply of_items_is_wf|].
  unfold values. apply Forall_map.
  apply of_items_Forall.
  apply (all_typed_items_Forall _ _ _ Ea).
  eapply (traverse_Forall _ _ _ _ _ _ Et).
  Unshelve.
  intros i kv [k o]. simpl.
  destruct (Book.from_dict (env i) (snd kv)) as [o'|] eqn:Eb; [|discriminate].
  simpl. intros [= <- <-] x ->.
  exact (Book_from_dict_valid _ _ _ (Hu i) Eb).
Qed.

Lemma decode_diary_list_valid (env : nat -> Env) (data : json)
    (l : list Diary.t) :
  (forall i, uuid4 (env i) <> "") ->
  decode_diary_list env data = Ok (Some l) -> Forall day_dated l.
Proof.
  intros Hu. unfold decode_diary_list.
  destruct (iter data) as [elems|]; [|discriminate]. simpl.
  destruct (traverse _ O elems) as [objs|] eqn:Et; [|discriminate]. simpl.
  intros [= Ha].
  apply (all_typed_Forall _ _ _ Ha).
  eapply (traverse_Forall _ _ _ _ _ _ Et).
  Unshelve.
  intros i x o Hx d ->. simpl in Hx.
  exact (Diary_from_dict_day_dated _ _ _ (Hu i) Hx).
Qed.

Lemma decode_diaries_valid (env : nat -> nat -> Env) (data : json)
    (ds : dict (list Diary.t)) :
  (forall i j, uuid4 (env i j) <> "") ->
  decode_diaries env data = Ok (Some ds) ->
  wf ds /\ Forall (Forall day_dated) (values ds).
Proof.
  intros Hu. unfold decode_diaries.
  destruct (get_default data "diaries" (JDict [])) as [section|];
    [|discriminate]. simpl.
  destruct (items section) as [entries|]; [|discriminate]. simpl.
  destruct (traverse _ O entries) as [objs|] eqn:Et; [|discriminate]. simpl.
  destruct (all_typed_items objs) as [l|] eqn:Ea; [|discriminate]. simpl.
  intros [= <-]. split; [apply of_items_is_wf|].
  unfold values. apply Forall_map.
  apply of_items_Forall.
  apply (all_typed_items_Forall _ _ _ Ea).
  eapply (traverse_Forall _ _ _ _ _ _ Et).
  Unshelve.
  intros i kv [k o]. simpl.
  destruct (decode_diary_list (env i) (snd kv)) as [o'|] eqn:El;
    [|discriminate].
  simpl. intros [= <- <-] x ->.
  exact (decode_diary_list_valid _ _ _ (Hu i) El).
Qed.

(** X13: after a load that reports success, both dicts have unique keys,
    every book has a non-empty id and every diary a non-empty id and a
    valid date without time of day (the generated ids being non-empty);
    the path of the data file is unchanged. *)
Theorem load_data_success (env : nat -> nat -> Env)
    (self self' : BookManager.t) (w : World) :
  (forall i j, uuid4 (env i j) <> "") ->
  load_data env self w = Some (self', true) ->
  data_file self' = data_file self
  /\ wf (books self') /\ wf (diaries self')
  /\ Forall Book.valid (values (books self'))
  /\ all_day_dated self'.
Proof.
  intros Hu. unfold load_data.
  destruct (files w (data_file self)) as [[|data]|]; try discriminate.
  destruct (decode_books (env O) data) as [[bs|]|] eqn:Eb; try discriminate.
  destruct (decode_diaries _ data) as [[ds|]|] eqn:Ed; try discriminate.
  intros [= <-].
  destruct (decode_books_valid _ _ _ (Hu O) Eb) as [Hwb Hvb].
  destruct (decode_diaries_valid _ _ _ (fun i => Hu (S i)) Ed) as [Hwd Hvd].
  unfold all_day_dated. simpl. repeat split; assumption.
Qed.

Lemma load_data_success_witness :
  (forall i j, uuid4 (sample_envs i j) <> "")
  /\ load_data sample_envs (empty store_file)
       (fst (save_data two_books no_files)) = Some (two_books, true)
  /\ wf (books two_books) /\ all_day_dated two_books.
Proof.
  assert (Hu : forall i j, uuid4 (sample_envs i j) <> "")
    by (intros i j; simpl; discriminate).
  split; [exact Hu|]. split; [reflexivity|].
  destruct (load_data_success sample_envs (empty store_file) two_books
              (fst (save_data two_books no_files)) Hu eq_refl)
    as (_ & Hb & _ & _ & Hd).
  split; [exact Hb | exact Hd].
Defined.

(** X14: when the data file is missing, or exists and cannot be opened
    or parsed, the constructor yields the empty repository for that
    path. *)
Theorem init_without_readable_file (env : nat -> nat -> Env)
    (data_file : string) (w : World) :
  files w data_file = None \/ files w data_file = Some Garbled ->
  BookManager.init env data_file w = Some (empty data_file).
Proof.
  unfold BookManager.init, load_data. simpl.
  intros [H|H]; now rewrite H.
Qed.

Lemma init_without_readable_file_witness :
  (files no_files store_file = None
   \/ files no_files store_file = Some Garbled)
  /\ BookManager.init sample_envs store_file no_files
     = Some (empty store_file).
Proof.
  split; [now left|].
  apply (init_without_readable_file sample_envs store_file no_files).
  now left.
Defined.

Lemma to_dict_at_midnight (d : Diary.t) :
  Diary.to_dict (at_midnight d) = Diary.to_dict d.
Proof. reflexivity. Qed.

(** X15: for a repository whose diaries have years of four digits,
    saving it, loading the file into a fresh repository and saving that
    one writes the same document again, also when the stored dates carry
    a time of day. *)
Theorem document_stable_under_reload (env : nat -> nat -> Env)
    (self : BookManager.t) (w : World) :
  wf (books self) -> wf (diaries self) ->
  Forall Book.valid (values (books self)) ->
  Forall (Forall keeps_day) (values (diaries self)) ->
  writable w (data_file self) = true ->
  exists fresh,
    BookManager.init env (data_file self) (fst (save_data self w))
    = Some fresh
    /\ document fresh = document self
    /\ data_file fresh = data_file self.
Proof.
  intros Hb Hd Hvb Hvd Hw.
  rewrite (init_after_save env self w Hb Hd Hvb Hvd Hw).
  eexists. split; [reflexivity|]. split; [|reflexivity].
  unfold document. cbn [books diaries]. rewrite map_map.
  do 6 f_equal. apply map_ext. intros [k l]. cbn [fst snd].
  do 2 f_equal. rewrite map_map. apply map_ext.
  intros d. apply to_dict_at_midnight.
Qed.

Lemma document_stable_under_reload_witness :
  (wf (books timed_store) /\ wf (diaries timed_store)
   /\ Forall Book.valid (values (books timed_store))
   /\ Forall (Forall keeps_day) (values (diaries timed_store))
   /\ writable no_files (data_file timed_store) = true)
  /\ exists fresh,
       BookManager.init sample_envs store_file
         (fst (save_data timed_store no_files)) = Some fresh
       /\ document fresh = document timed_store.
Proof.
  assert (Hb : wf (books timed_store)).
  { unfold wf. simpl. repeat constructor; simpl; intuition discriminate. }
  assert (Hd : wf (diaries timed_store)).
  { unfold wf. simpl. repeat constructor; simpl; intuition discriminate. }
  assert (Hvb : Forall Book.valid (values (books timed_store))).
  { simpl. repeat constructor; unfold Book.valid; simpl; discriminate. }
  assert (Hvd : Forall (Forall keeps_day) (values (diaries timed_store))).
  { simpl. repeat constructor; simpl; try discriminate;
      unfold four_digit_year; simpl; lia. }
  split; [repeat split; assumption|].
  destruct (document_stable_under_reload sample_envs timed_store no_files
              Hb Hd Hvb Hvd eq_refl) as (fresh & Hi & Hdoc & _).
  exists fresh. split; [exact Hi | exact Hdoc].
Defined.

(* ===================================================================== *)
(** ** Invariants of the six mutating methods *)
(* ===================================================================== *)

Lemma consistent_update_book (b : Book.t) (self : BookManager.t)
    (w : World) :
  consistent self -> consistent (fst (fst (update_book b self w))).
Proof.
  intros (Hb & Hd & Hf & Hl). unfold update_book.
  destruct (mem (Book.id b) (books self)) eqn:E; cbn [fst];
    [|repeat split; assumption].
  unfold consistent, books_have_lists. cbn [books diaries set_books].
  split; [now apply wf_set|]. split; [exact Hd|]. split; [exact Hf|].
  intros k Hk. apply Hl.
  destruct (String.eqb k (Book.id b)) eqn:Ek.
  - apply String.eqb_eq in Ek. now subst.
  - apply String.eqb_neq in Ek. now rewrite mem_set_neq in Hk.
Qed.

Lemma mem_set_inv {V : Type} (k k' : string) (v : V) (d : dict V) :
  mem k (set k' v d) = true -> k = k' \/ mem k d = true.
Proof.
  intros H. destruct (String.eqb k k') eqn:E.
  - left. now apply String.eqb_eq.
  - right. apply String.eqb_neq in E. now rewrite mem_set_neq in H.
Qed.

Lemma mem_del_inv {V : Type} (k i : string) (d : dict V) :
  wf d -> mem k (del i d) = true -> k <> i /\ mem k d = true.
Proof.
  intros Hw H. assert (Hne : k <> i).
  { intros ->. unfold mem in H. now rewrite get_del_eq in H. }
  split; [exact Hne|]. unfold mem in *. now rewrite get_del_neq in H.
Qed.

Lemma mem_del_keep {V : Type} (k i : string) (d : dict V) :
  k <> i -> mem k d = true -> mem k (del i d) = true.
Proof. intros Hne H. unfold mem in *. now rewrite get_del_neq. Qed.

Lemma coherent_empty (data_file : string) : coherent (empty data_file).
Proof. split; [constructor | intros k H; discriminate]. Qed.

Lemma coherent_add_book (b : Book.t) (self : BookManager.t) (w : World) :
  coherent self -> coherent (fst (fst (add_book b self w))).
Proof.
  intros [Hk Hl]. unfold add_book, coherent, keyed_by_id, lists_have_books.
  cbn [fst].
  change (diaries (set_books (set (Book.id b) b (books self)) self))
    with (diaries self).
  destruct (mem (Book.id b) (diaries self)) eqn:E;
    cbn [books diaries set_books set_diaries];
    (split; [apply Forall_set; [exact Hk | reflexivity]|]); intros k H.
  - apply mem_set_mono. now apply Hl.
  - apply mem_set_inv in H. destruct H as [->|H].
    + apply mem_set_eq.
    + apply mem_set_mono. now apply Hl.
Qed.

Lemma coherent_update_book (b : Book.t) (self : BookManager.t) (w : World) :
  coherent self -> coherent (fst (fst (update_book b self w))).
Proof.
  intros [Hk Hl]. unfold update_book.
  destruct (mem (Book.id b) (books self)); cbn [fst]; [|now split].
  unfold coherent, keyed_by_id, lists_have_books.
  cbn [books diaries set_books]. split.
  - apply Forall_set; [exact Hk | reflexivity].
  - intros k H. apply mem_set_mono. now apply Hl.
Qed.

Lemma coherent_delete_book (i : string) (self : BookManager.t) (w : World) :
  wf (diaries self) ->
  coherent self -> coherent (fst (fst (delete_book i self w))).
Proof.
  intros Hw [Hk Hl]. unfold delete_book.
  destruct (mem i (books self)); cbn [fst]; [|now split].
  change (diaries (set_books (del i (books self)) self)) with (diaries self).
  unfold coherent, keyed_by_id, lists_have_books.
  destruct (mem i (diaries self)) eqn:E;
    cbn [books diaries set_books set_diaries];
    (split; [now apply Forall_del|]); intros k H.
  - apply (mem_del_inv _ _ _ Hw) in H. destruct H as [Hne H].
    apply mem_del_keep; auto.
  - apply mem_del_keep; [|now apply Hl]. intros ->. congruence.
Qed.

Lemma coherent_add_diary (d : Diary.t) (self : BookManager.t) (w : World) :
  coherent self -> coherent (fst (fst (add_diary d self w))).
Proof.
  intros [Hk Hl]. unfold add_diary.
  destruct (mem (Diary.book_id d) (books self)) eqn:Em; cbn [fst];
    [|now split].
  unfold coherent, keyed_by_id, lists_have_books.
  destruct (mem (Diary.book_id d) (diaries self)) eqn:E;
    cbn [books diaries set_books set_diaries];
    (split; [exact Hk|]); intros k H.
  - apply mem_set_inv in H. destruct H as [->|H]; auto.
  - apply mem_set_inv in H. destruct H as [->|H]; auto.
    apply mem_set_inv in H. destruct H as [->|H]; auto.
Qed.

Lemma coherent_update_diary (d : Diary.t) (self : BookManager.t)
    (w : World) :
  coherent self -> coherent (fst (fst (update_diary d self w))).
Proof.
  intros [Hk Hl]. unfold update_diary.
  destruct (get (Diary.book_id d) (diaries self)) as [l|] eqn:G;
    [|now split].
  destruct (find_index _ l); cbn [fst]; [|now split].
  unfold coherent, keyed_by_id, lists_have_books.
  cbn [books diaries set_diaries]. split; [exact Hk|].
  intros k H. apply mem_set_inv in H. destruct H as [->|H]; auto.
  apply Hl. unfold mem. now rewrite G.
Qed.

Lemma coherent_delete_diary (i : string) (self : BookManager.t)
    (w : World) :
  coherent self -> coherent (fst (fst (delete_diary i self w))).
Proof.
  intros [Hk Hl]. unfold delete_diary.
  destruct (delete_first i (diaries self)) as [ds|] eqn:E; cbn [fst];
    [|now split].
  unfold coherent, keyed_by_id, lists_have_books.
  cbn [books diaries set_diaries]. split; [exact Hk|].
  intros k H. apply Hl. apply mem_In_keys.
  rewrite <- (delete_first_keys _ _ _ E). now apply mem_In_keys.
Qed.

Lemma perform_keeps (c : call) (self : BookManager.t) (w : World) :
  consistent self /\ coherent self ->
  consistent (fst (perform c self w)) /\ coherent (fst (perform c self w)).
Proof.
  intros [Hc Hh]. destruct c; unfold perform; split.
  - now apply consistent_add_book.
  - now apply coherent_add_book.
  - now apply consistent_update_book.
  - now apply coherent_update_book.
  - now apply consistent_delete_book.
  - apply coherent_delete_book; [apply Hc | exact Hh].
  - now apply consistent_add_diary.
  - now apply coherent_add_diary.
  - now apply consistent_update_diary.
  - now apply coherent_update_diary.
  - now apply consistent_delete_diary.
  - now apply coherent_delete_diary.
Qed.

Lemma built_keeps (data_file : string) (self : BookManager.t) :
  built data_file self -> consistent self /\ coherent self.
Proof.
  induction 1 as [|self c w Hb IH].
  - split; [apply consistent_empty | apply coherent_empty].
  - now apply perform_keeps.
Qed.

(** X16: in every repository built from the empty one by [add_book],
    [update_book], [delete_book], [add_diary], [update_diary] and
    [delete_diary], each book is stored under its own id, the diaries
    and the books have the same keys, and the book of every stored
    diary exists. *)
Theorem built_referential_integrity (data_file : string)
    (self : BookManager.t) :
  built data_file self ->
  (forall k b, get k (books self) = Some b -> Book.id b = k)
  /\ (forall k, mem k (diaries self) = mem k (books self))
  /\ (forall k l d, get k (diaries self) = Some l -> In d l ->
        mem (Diary.book_id d) (books self) = true).
Proof.
  intros Hb.
  destruct (built_keeps _ _ Hb) as [(_ & _ & Hf & Hl) [Hk Hh]].
  split; [|split].
  - intros k b Hg. apply get_In in Hg.
    unfold keyed_by_id in Hk. rewrite Forall_forall in Hk.
    exact (Hk _ Hg).
  - intros k. destruct (mem k (books self)) eqn:E.
    + now apply Hl.
    + destruct (mem k (diaries self)) eqn:E'; auto.
      apply Hh in E'. congruence.
  - intros k l d Hg Hin.
    pose proof (filed_get _ _ _ Hf Hg) as Hd.
    rewrite Forall_forall in Hd. rewrite (Hd _ Hin).
    apply Hh. unfold mem. now rewrite Hg.
Qed.

Lemma built_referential_integrity_witness :
  built store_file one_book
  /\ (forall k, mem k (diaries one_book) = mem k (books one_book)).
Proof.
  assert (Hb : built store_file one_book).
  { change one_book
      with (fst (perform (CallAddDiary note_may)
                   (fst (perform (CallAddBook dune) (empty store_file)
                           no_files))
                   no_files)).
    apply built_step. apply built_step. apply built_empty. }
  split; [exact Hb|].
  exact (proj1 (proj2 (built_referential_integrity store_file one_book Hb))).
Defined.

(* ===================================================================== *)
(** ** Diary.__str__ *)
(* ===================================================================== *)

Lemma string_length_append (a b : string) :
  String.length (String.append a b)
  = (String.length a + String.length b)%nat.
Proof. induction a as [|c a IH]; simpl; auto. Qed.

Lemma string_length_of_list (l : list ascii) :
  String.length (string_of_list_ascii l) = List.length l.
Proof. induction l as [|c l IH]; simpl; auto. Qed.

Lemma substring_length (n : nat) (s : string) :
  String.length (String.substring 0 n s) = Nat.min n (String.length s).
Proof.
  revert s. induction n as [|n IH]; intros [|c s]; simpl; auto.
Qed.

Lemma substring_whole (n : nat) (s : string) :
  (String.length s <= n)%nat -> String.substring 0 n s = s.
Proof.
  revert s. induction n as [|n IH]; intros [|c s]; simpl; auto.
  - intros H. inversion H.
  - intros H. f_equal. apply IH. lia.
Qed.

Lemma prefix_append (a b : string) : String.prefix a (String.append a b) = true.
Proof.
  induction a as [|c a IH]; simpl.
  - now destruct b.
  - destruct (ascii_dec c c) as [_|H]; [exact IH | now elim H].
Qed.

(** X17: for a diary with a year of four digits and an ASCII content,
    the text of the diary is its date in ten characters, a colon and a
    space, at most the first thirty characters of the content, and three
    dots, which are there also when nothing was cut off. *)
Theorem Diary_str_shape (d : Diary.t) :
  four_digit_year d -> PyStr.is_ascii (Diary.content d) = true ->
  String.length (Diary.__str__ d)
  = (15 + Nat.min 30 (String.length (Diary.content d)))%nat
  /\ String.prefix (strftime (Diary.date d)) (Diary.__str__ d) = true
  /\ ((String.length (Diary.content d) <= 30)%nat ->
      Diary.__str__ d
      = String.append (strftime (Diary.date d))
          (String.append ": " (String.append (Diary.content d) "..."))).
Proof.
  intros Hy _. unfold Diary.__str__. split; [|split].
  - rewrite !string_length_append, substring_length.
    unfold strftime, strftime_chars.
    rewrite string_length_of_list, year_chars_four_digits by exact Hy.
    simpl. lia.
  - apply prefix_append.
  - intros H. now rewrite substring_whole.
Qed.

Lemma Diary_str_shape_witness :
  (four_digit_year note_may
   /\ PyStr.is_ascii (Diary.content note_may) = true
   /\ (String.length (Diary.content note_may) <= 30)%nat)
  /\ Diary.__str__ note_may = "2024-05-01: Great start...".
Proof.
  assert (Hy : four_digit_year note_may)
    by (unfold four_digit_year; simpl; lia).
  assert (H : (String.length (Diary.content note_may) <= 30)%nat)
    by (simpl; lia).
  split; [repeat split; assumption|].
  exact (proj2 (proj2 (Diary_str_shape note_may Hy eq_refl)) H).
Defined.

(* ===================================================================== *)
(** ** gradio_ui.py *)
(* ===================================================================== *)

Import GradioUI.

(** X18: the shortcut of [search_books_ui] for the empty query changes
    nothing: for every query the table holds the rows of the books
    [search_books] returns, in the same order. *)
Theorem search_books_ui_rows (query : string) (self : BookManager.t) :
  search_books_ui query self = map book_row (search_books query self).
Proof.
  unfold search_books_ui, get_book_list_ui.
  destruct (String.eqb query "") eqn:E; [|reflexivity].
  apply String.eqb_eq in E. subst query. f_equal.
  unfold search_books, get_all_books. simpl PyStr.lower.
  symmetry. apply filter_all. intros b. now rewrite contains_empty.
Qed.

Lemma add_diary_unknown_book (d : Diary.t) (self : BookManager.t)
    (w : World) :
  mem (Diary.book_id d) (books self) = false ->
  add_diary d self w = (self, w, Raise ValueError).
Proof. intros H. unfold add_diary. now rewrite H. Qed.

Lemma add_diary_known_book (d : Diary.t) (self : BookManager.t)
    (w : World) :
  mem (Diary.book_id d) (books self) = true ->
  snd (add_diary d self w) = Ok (Diary.id d).
Proof. intros H. unfold add_diary. now rewrite H. Qed.

(** X19: on an ASCII date text, [add_diary_ui] stores a diary only when
    a book is selected, the content is not empty, the date text is
    accepted by [strptime] and the book exists; the stored diary then
    has a generated id and the parsed date, and the message says so.  In
    every other case the repository and the files stay as they were and
    another message is returned; for a book that does not exist it is
    the message about the date format. *)
Theorem add_diary_ui_spec (env : Env) (book_id date_str content : string)
    (self : BookManager.t) (w : World) :
  PyStr.is_ascii date_str = true ->
  (book_id = "" \/ content = "" \/ (exists e, strptime date_str = Raise e)
   \/ mem book_id (books self) = false ->
   fst (add_diary_ui env book_id date_str content self w) = (self, w)
   /\ snd (add_diary_ui env book_id date_str content self w) <> diary_added)
  /\
  (forall dt,
     book_id <> "" -> content <> "" -> strptime date_str = Ok dt ->
     (mem book_id (books self) = true ->
      add_diary_ui env book_id date_str content self w
      = (fst (add_diary (Diary.mk (uuid4 env) book_id dt content) self w),
         diary_added))
     /\ (mem book_id (books self) = false ->
         snd (add_diary_ui env book_id date_str content self w)
         = bad_date_format)).
Proof.
  intros _. unfold add_diary_ui. split.
  - intros H.
    destruct (String.eqb book_id "") eqn:Eb;
      [split; [reflexivity | vm_compute; discriminate]|].
    destruct (String.eqb content "") eqn:Ec;
      [split; [reflexivity | vm_compute; discriminate]|].
    destruct (strptime date_str) as [dt|[]] eqn:Es;
      try (split; [reflexivity | vm_compute; discriminate]).
    destruct H as [H|[H|[[e H]|H]]].
    + apply String.eqb_neq in Eb. contradiction.
    + apply String.eqb_neq in Ec. contradiction.
    + discriminate.
    + rewrite add_diary_unknown_book by exact H. simpl.
      split; [reflexivity | vm_compute; discriminate].
  - intros dt Hb Hc Hs.
    apply String.eqb_neq in Hb, Hc. rewrite Hb, Hc, Hs.
    unfold Diary.init. split; intros Hm.
    + rewrite add_diary_known_book by exact Hm.
      now destruct (add_diary _ self w) as [[s' w'] r].
    + now rewrite add_diary_unknown_book by exact Hm.
Qed.

Lemma add_diary_ui_spec_witness :
  PyStr.is_ascii "2024-06-03" = true
  /\
  (mem "B7" (books one_book) = false
   /\ fst (add_diary_ui sample_env "B7" "2024-06-03" "Lost" one_book no_files)
      = (one_book, no_files))
  /\
  ("B1" <> "" /\ "Halfway" <> ""
   /\ strptime "2024-06-03" = Ok (mk_datetime 2024 6 3 0 0 0 0)
   /\ mem "B1" (books one_book) = true
   /\ snd (add_diary_ui sample_env "B1" "2024-06-03" "Halfway"
             one_book no_files) = diary_added).
Proof.
  split; [reflexivity|]. split.
  - split; [reflexivity|].
    apply (proj1 (add_diary_ui_spec sample_env "B7" "2024-06-03" "Lost"
                    one_book no_files eq_refl)).
    right. right. right. reflexivity.
  - assert (H1 : "B1" <> "") by discriminate.
    assert (H2 : "Halfway" <> "") by discriminate.
    split; [exact H1|]. split; [exact H2|].
    split; [reflexivity|]. split; [reflexivity|].
    rewrite (proj1 (proj2 (add_diary_ui_spec sample_env "B1" "2024-06-03"
                             "Halfway" one_book no_files eq_refl)
                      (mk_datetime 2024 6 3 0 0 0 0) H1 H2 eq_refl) eq_refl).
    reflexivity.
Defined.

Lemma all_day_dated_entries (ds : dict (list Diary.t)) :
  Forall (Forall day_dated) (values ds)
  <-> Forall (fun kv => Forall day_dated (snd kv)) ds.
Proof. unfold values. apply Forall_map. Qed.

Lemma day_dated_get (ds : dict (list Diary.t)) (k : string)
    (l : list Diary.t) :
  Forall (fun kv => Forall day_dated (snd kv)) ds ->
  get k ds = Some l -> Forall day_dated l.
Proof.
  intros H Hg. apply get_In in Hg. rewrite Forall_forall in H.
  exact (H _ Hg).
Qed.

Lemma all_day_dated_add_diary (d : Diary.t) (self : BookManager.t)
    (w : World) :
  day_dated d -> all_day_dated self ->
  all_day_dated (fst (fst (add_diary d self w))).
Proof.
  intros Hd Hall. unfold all_day_dated in *.
  rewrite all_day_dated_entries in *. unfold add_diary.
  destruct (mem (Diary.book_id d) (books self)); cbn [fst]; [|exact Hall].
  assert (H1 : Forall (fun kv => Forall day_dated (snd kv))
                 (diaries (if mem (Diary.book_id d) (diaries self)
                           then self
                           else set_diaries
                                  (set (Diary.book_id d) [] (diaries self))
                                  self))).
  { destruct (mem (Diary.book_id d) (diaries self));
      cbn [diaries set_diaries]; [exact Hall|].
    apply Forall_set; [exact Hall | constructor]. }
  cbn [diaries set_diaries]. apply Forall_set; [exact H1|].
  cbn [snd]. apply Forall_app. split; [|constructor; [exact Hd | constructor]].
  destruct (get (Diary.book_id d) (diaries _)) eqn:G; [|constructor].
  exact (day_dated_get _ _ _ H1 G).
Qed.

Lemma all_day_dated_update_diary (d : Diary.t) (self : BookManager.t)
    (w : World) :
  day_dated d -> all_day_dated self ->
  all_day_dated (fst (fst (update_diary d self w))).
Proof.
  intros Hd Hall. unfold all_day_dated in *.
  rewrite all_day_dated_entries in *. unfold update_diary.
  destruct (get (Diary.book_id d) (diaries self)) as [l|] eqn:G;
    [|exact Hall].
  destruct (find_index _ l); cbn [fst]; [|exact Hall].
  cbn [diaries set_diaries]. apply Forall_set; [exact Hall|]. cbn [snd].
  apply replace_nth_Forall; [exact Hd|].
  exact (day_dated_get _ _ _ Hall G).
Qed.

(** X20: the two handlers that write diaries keep every stored diary
    dated by the day with a non-empty id (the generated ids being
    non-empty), whatever the user types. *)
Theorem diary_handlers_keep_day_dated (env : Env)
    (key date_str content : string) (self : BookManager.t) (w : World) :
  uuid4 env <> "" -> all_day_dated self ->
  all_day_dated (fst (fst (add_diary_ui env key date_str content self w)))
  /\ all_day_dated
       (fst (fst (update_diary_ui env key date_str content self w))).
Proof.
  intros Hu Hall. split.
  - unfold add_diary_ui.
    destruct (String.eqb key ""); [exact Hall|].
    destruct (String.eqb content ""); [exact Hall|].
    destruct (strptime date_str) as [dt|[]] eqn:Es; try exact Hall.
    destruct (strptime_valid_midnight _ _ Es) as [Hv Hm].
    assert (Hd : day_dated (Diary.init env key content (Some dt) None)).
    { split; [now apply Diary_init_valid | exact Hm]. }
    pose proof (all_day_dated_add_diary _ self w Hd Hall) as H.
    destruct (snd (add_diary _ self w)) as [i|[]]; exact H.
  - unfold update_diary_ui.
    destruct (String.eqb key ""); [exact Hall|].
    destruct (String.eqb content ""); [exact Hall|].
    destruct (get_diary key self) as [old|]; [|exact Hall].
    destruct (strptime date_str) as [dt|[]] eqn:Es; try exact Hall.
    destruct (strptime_valid_midnight _ _ Es) as [Hv Hm].
    assert (Hd : day_dated (Diary.init env (Diary.book_id old) content
                              (Some dt) (Some key))).
    { split; [now apply Diary_init_valid | exact Hm]. }
    pose proof (all_day_dated_update_diary _ self w Hd Hall) as H.
    destruct (snd (update_diary _ self w)); exact H.
Qed.

Lemma diary_handlers_keep_day_dated_witness :
  (uuid4 sample_env <> "" /\ all_day_dated one_book)
  /\ all_day_dated
       (fst (fst (add_diary_ui sample_env "B1" "2024-6-3" "Halfway"
                    one_book no_files))).
Proof.
  assert (Hu : uuid4 sample_env <> "") by (simpl; discriminate).
  assert (Ha : all_day_dated one_book).
  { unfold all_day_dated. simpl. repeat constructor. simpl. discriminate. }
  split; [now split|].
  exact (proj1 (diary_handlers_keep_day_dated sample_env "B1" "2024-6-3"
                  "Halfway" one_book no_files Hu Ha)).
Defined.

Section LocateFacts.
Context {V : Type}.




End LocateFacts.






(** X22: [add_book_ui] refuses an empty title, an empty author and the
    year 0 with the message about required fields and changes nothing;
    otherwise it adds a book with the given fields under a generated id
    and [get_book] finds the book under that id. *)
Theorem add_book_ui_spec (env : Env) (title author : string)
    (published_year : Z) (genre memo : string) (self : BookManager.t)
    (w : World) :
  (title = "" \/ author = "" \/ published_year = 0 ->
   add_book_ui env title author published_year genre memo self w
   = (self, w, required_book_fields))
  /\
  (title <> "" -> author <> "" -> published_year <> 0 ->
   add_book_ui env title author published_year genre memo self w
   = (fst (add_book (Book.mk (uuid4 env) title author published_year
                       genre memo) self w),
      book_added title)
   /\ get_book (uuid4 env)
        (fst (fst (add_book_ui env title author published_year genre memo
                     self w)))
      = Some (Book.mk (uuid4 env) title author published_year genre memo)).
Proof.
  unfold add_book_ui. split.
  - intros [-> | [-> | ->]]; simpl.
    + reflexivity.
    + now rewrite orb_true_r.
    + now rewrite orb_true_r.
  - intros Ht Ha Hy.
    apply String.eqb_neq in Ht, Ha. apply Z.eqb_neq in Hy.
    rewrite Ht, Ha, Hy. cbn [orb]. unfold Book.init.
    split.
    + now destruct (add_book _ self w) as [[s' w'] r].
    + cbn [fst]. unfold add_book, get_book. cbn [fst Book.id].
      destruct (mem (uuid4 env) (diaries _));
        cbn [books set_books set_diaries]; apply get_set_eq.
Qed.

Lemma add_book_ui_spec_witness :
  ("Emma" <> "" /\ "Austen" <> "" /\ 1815 <> 0)
  /\ get_book (uuid4 sample_env)
       (fst (fst (add_book_ui sample_env "Emma" "Austen" 1815 "" ""
                    one_book no_files)))
     = Some (Book.mk (uuid4 sample_env) "Emma" "Austen" 1815 "" "").
Proof.
  assert (H1 : "Emma" <> "") by discriminate.
  assert (H2 : "Austen" <> "") by discriminate.
  assert (H3 : 1815 <> 0) by discriminate.
  split; [repeat split; assumption|].
  exact (proj2 (proj2 (add_book_ui_spec sample_env "Emma" "Austen" 1815
                         "" "" one_book no_files) H1 H2 H3)).
Defined.

(* ===================================================================== *)
(** ** The methods and the file system *)
(* ===================================================================== *)

Lemma save_data_other_files (self : BookManager.t) (w : World) (p : string) :
  p <> data_file self -> files (fst (save_data self w)) p = files w p.
Proof.
  intros H. unfold save_data. destruct (writable w (data_file self)); auto.
  simpl. apply String.eqb_neq in H. now rewrite H.
Qed.

Lemma save_data_unwritable (self : BookManager.t) (w : World) :
  writable w (data_file self) = false -> fst (save_data self w) = w.
Proof. intros H. unfold save_data. now rewrite H. Qed.

(** Every method returns the world it was given or the result of one
    save of the repository it returns. *)
Lemma perform_world (c : call) (self : BookManager.t) (w : World) :
  data_file (fst (perform c self w)) = data_file self
  /\ (snd (perform c self w) = w
      \/ snd (perform c self w)
         = fst (save_data (fst (perform c self w)) w)).
Proof.
  destruct c; unfold perform.
  - unfold add_book. cbn [fst snd].
    destruct (mem (Book.id book) (diaries _)); split; auto.
  - unfold update_book.
    destruct (mem (Book.id book) (books self)); cbn [fst snd]; auto.
  - unfold delete_book.
    destruct (mem book_id (books self)); cbn [fst snd]; auto.
    destruct (mem book_id (diaries _)); split; auto.
  - unfold add_diary.
    destruct (mem (Diary.book_id diary) (books self)); cbn [fst snd]; auto.
    destruct (mem (Diary.book_id diary) (diaries self)); split; auto.
  - unfold update_diary.
    destruct (get (Diary.book_id diary) (diaries self)) as [l|];
      cbn [fst snd]; auto.
    destruct (find_index _ l); cbn [fst snd]; auto.
  - unfold delete_diary.
    destruct (delete_first diary_id (diaries self)); cbn [fst snd]; auto.
Qed.

(** X23: none of the six methods touches a file other than the data
    file, changes the path of the data file, or, when the data file
    cannot be written, changes any file; and what a method does to the
    repository in memory does not depend on the files. *)
Theorem methods_and_files (c : call) (self : BookManager.t) (w : World) :
  data_file (fst (perform c self w)) = data_file self
  /\ (forall p, p <> data_file self ->
        files (snd (perform c self w)) p = files w p)
  /\ (writable w (data_file self) = false -> snd (perform c self w) = w)
  /\ (forall w', fst (perform c self w') = fst (perform c self w)).
Proof.
  destruct (perform_world c self w) as [Hp Hw].
  split; [exact Hp|]. split; [|split].
  - intros p Hne. destruct Hw as [->| ->]; auto.
    apply save_data_other_files. now rewrite Hp.
  - intros H. destruct Hw as [->| ->]; auto.
    apply save_data_unwritable. now rewrite Hp.
  - intros w'. destruct c; unfold perform.
    + reflexivity.
    + unfold update_book. now destruct (mem _ _).
    + unfold delete_book. now destruct (mem _ (books self)).
    + unfold add_diary. now destruct (mem _ (books self)).
    + unfold update_diary.
      destruct (get _ _) as [l|]; auto. now destruct (find_index _ l).
    + unfold delete_diary. now destruct (delete_first _ _).
Qed.

Lemma methods_and_files_witness :
  writable read_only (data_file one_book) = false
  /\ snd (perform (CallAddDiary note_june) one_book read_only) = read_only
  /\ get_diary "D4" (fst (perform (CallAddDiary note_june) one_book read_only))
     = Some note_june.
Proof.
  split; [reflexivity|]. split; [|reflexivity].
  exact (proj1 (proj2 (proj2 (methods_and_files (CallAddDiary note_june)
                                one_book read_only))) eq_refl).
Defined.
